(** * ICSP programmer core of the wifi-pic-programmer firmware

    A shallow embedding of [src/oldfirmware/pic.c]: the bit codec, the
    program-counter state machine, device detection, the word access layer
    and the streaming read, followed by the properties proved about them.

    Conventions.  Unsigned C integers are [Z] values in their range; a
    wrap-around is written out wherever the C arithmetic can wrap.  The
    firmware keeps its session in file-level statics; here they are the
    fields of one [session] record that every operation threads through.
    What the firmware does to the outside world (pin operations, delays,
    responses, console output, stores through the read buffer pointer) is
    appended to logs kept in the same record, newest entry first. *)

From Stdlib Require Import ZArith List String Ascii Bool Lia.
Import ListNotations.
Local Open Scope Z_scope.

(** ** Integer widths *)

Definition wrap32 (z : Z) : Z := z mod 2 ^ 32.
Definition wrap64 (z : Z) : Z := z mod 2 ^ 64.

(** ** The hardware link *)

(** The named lines of [pic_io.h] ([MCLR_NUM], [VDD_NUM], ...).  The header
    is not part of the sources at hand; only the names matter here. *)
Inductive pin : Type :=
| MCLR_NUM | VDD_NUM | DATA_NUM | CLOCK_NUM | LED_NUM.

Definition LOW : bool := false.
Definition HIGH : bool := true.

(** One operation on the hardware link, as it appears in the log. *)
Inductive hw_event : Type :=
| EvSet (p : pin) (level : bool)
| EvOutput (p : pin)
| EvInput (p : pin)
| EvGet (p : pin) (level : bool)
| EvDelay (us : Z).

(** The constants of [pic_io.h] and [pic_devices.h] that [pic.c] uses.
    Both headers are absent, so the constants are parameters of the model. *)
Record pic_io_h : Type := mkIo {
  MCLR_RESET : bool;
  MCLR_VPP : bool;
  DELAY_SETTLE : Z;
  DELAY_TPPDP : Z;
  DELAY_THLD0 : Z;
  DELAY_TSET1 : Z;
  DELAY_THLD1 : Z;
  DELAY_TDLY2 : Z;
  DELAY_TDLY3 : Z;
  CMD_LOAD_CONFIG : Z;
  CMD_READ_PROGRAM_MEMORY : Z;
  CMD_READ_DATA_MEMORY : Z;
  CMD_INCREMENT_ADDRESS : Z;
  DEV_USERID0 : Z;
  DEV_USERID1 : Z;
  DEV_USERID2 : Z;
  DEV_USERID3 : Z;
  DEV_ID : Z;
  DEV_CONFIG_WORD : Z;
  FLASH4 : Z;
  EEPROM : Z
}.

(** ** Session data *)

(** [STATE_IDLE], [STATE_PROGRAM], [STATE_CONFIG]: the only values ever
    stored in [_state]. *)
Inductive prog_state : Type :=
| STATE_IDLE | STATE_PROGRAM | STATE_CONFIG.

Definition prog_state_eqb (a b : prog_state) : bool :=
  match a, b with
  | STATE_IDLE, STATE_IDLE => true
  | STATE_PROGRAM, STATE_PROGRAM => true
  | STATE_CONFIG, STATE_CONFIG => true
  | _, _ => false
  end.

(** The flat address ranges and memory tags (the statics [programEnd] ...
    [dataFlashType]). *)
Record profile : Type := mkProfile {
  programEnd : Z;
  configStart : Z;
  configEnd : Z;
  dataStart : Z;
  dataEnd : Z;
  reservedStart : Z;
  reservedEnd : Z;
  configSave : Z;
  progFlashType : Z;
  dataFlashType : Z
}.

(** [struct deviceInfo] of [pic_devices.h], with the fields [pic.c] reads. *)
Record deviceInfo : Type := mkDevice {
  name : string;
  deviceId : Z;
  programSize : Z;
  dev_configStart : Z;
  configSize : Z;
  dev_dataStart : Z;
  dataSize : Z;
  reservedWords : Z;
  dev_configSave : Z;
  dev_progFlashType : Z;
  dev_dataFlashType : Z
}.

(** Status codes.  [sp.h] of the old firmware is absent; the first three are
    those of [src/firmware/include/sp.h], the others are the ones [pic.c]
    names. *)
Inductive SPError : Type :=
| SP_OK
| SP_ERR_INVALID_COMMAND
| SP_ERR_REQ_LEN
| SP_ERR_DEVICE_NOT_DETECTED
| SP_STATUS_READ_MORE
| SP_STATUS_READ_DONE.

Record SPPacketHead : Type := mkHead {
  command : Z;
  body_length : Z
}.

Record SPPacket : Type := mkPacket {
  head : SPPacketHead;
  body : list Z
}.

(** An argument of [os_printf]. *)
Inductive parg : Type :=
| PStr (s : string)
| PInt (z : Z).

Record session : Type := mkSession {
  _state : prog_state;
  _program_counter : Z;
  prof : profile;
  (* logs, newest first *)
  wire : list hw_event;
  samples : nat;
  responses : list (SPError * list Z);
  console : list (string * list parg);
  stores : list (Z * Z)
}.

Definition set_state (st : prog_state) (s : session) : session :=
  mkSession st (_program_counter s) (prof s) (wire s) (samples s)
            (responses s) (console s) (stores s).

Definition set_pc (pc : Z) (s : session) : session :=
  mkSession (_state s) pc (prof s) (wire s) (samples s)
            (responses s) (console s) (stores s).

Definition set_prof (p : profile) (s : session) : session :=
  mkSession (_state s) (_program_counter s) p (wire s) (samples s)
            (responses s) (console s) (stores s).

Definition emit (e : hw_event) (s : session) : session :=
  mkSession (_state s) (_program_counter s) (prof s) (e :: wire s) (samples s)
            (responses s) (console s) (stores s).

(** The events of the log in the order they happened. *)
Definition trace (s : session) : list hw_event := rev (wire s).

(** Commands that return nothing, and their sequencing. *)
Definition cmd : Type := session -> session.

Definition andthen (a b : cmd) : cmd := fun s => b (a s).

Notation "a ;; b" := (andthen a b) (at level 61, right associativity).

Definition GPIO_SET (p : pin) (level : bool) : cmd := emit (EvSet p level).
Definition GPIO_OUTPUT (p : pin) : cmd := emit (EvOutput p).
Definition GPIO_INPUT (p : pin) : cmd := emit (EvInput p).
Definition os_delay_us (us : Z) : cmd := emit (EvDelay us).

(** Modelled from the spec: the response-emission capability
    [sp_tcpserver_response], "accepting a status code and an optional byte
    payload".  Its definition is not in the sources; a call is recorded. *)
Definition sp_tcpserver_response (status : SPError) (data : list Z) : cmd :=
  fun s =>
    mkSession (_state s) (_program_counter s) (prof s) (wire s) (samples s)
              ((status, data) :: responses s) (console s) (stores s).

(** [os_printf] writes to the debug console; a call is recorded with its
    format string and arguments. *)
Definition os_printf (fmt : string) (args : list parg) : cmd :=
  fun s =>
    mkSession (_state s) (_program_counter s) (prof s) (wire s) (samples s)
              (responses s) ((fmt, args) :: console s) (stores s).

Definition bytes_of_string (n : string) : list Z :=
  map (fun c => Z.of_N (N_of_ascii c)) (list_ascii_of_string n).

(** The values of lines 15-24. *)
Definition default_profile (io : pic_io_h) : profile :=
  mkProfile 0x07FF 0x2000 0x2007 0x2100 0x217F 0x0800 0x07FF 0x0000
            (FLASH4 io) (EEPROM io).

(** The session at start-up: statics at their initialisers, nothing logged. *)
Definition boot (io : pic_io_h) : session :=
  mkSession STATE_IDLE 0 (default_profile io) [] 0%nat [] [] [].

(** ** Concrete parameters used by the examples *)

(** The ICSP opcodes, configuration-word locations and timings of the
    PIC16F6xx family, standing in for [pic_io.h]. *)
Definition icsp_io : pic_io_h :=
  mkIo true false 50 5 5 1 1 1 1
       0x00 0x04 0x05 0x06
       0 1 2 3 6 7
       4 0.

(** A data line that is low at every sample: an empty socket. *)
Definition line_low : nat -> bool := fun _ => false.

(** A data line that is high at every sample. *)
Definition line_high : nat -> bool := fun _ => true.

Definition pic16f628a : deviceInfo :=
  mkDevice "pic16f628a" 0x1060 2048 0x2000 8 0x2100 128 0 0x0000 4 0.

Definition pic12f675 : deviceInfo :=
  mkDevice "pic12f675" 0x0FC0 1024 0x2000 8 0x2100 128 1 0x3000 4 0.

Definition two_devices : list deviceInfo := [pic12f675; pic16f628a].

(** A table entry whose data memory is declared over its config memory. *)
Definition overlapping_device : deviceInfo :=
  mkDevice "overlap" 0x0020 1024 0x2000 8 0x2000 128 0 0x0000 4 0.

(** A table with an entry of pattern 0, as a part without a device id would
    be listed. *)
Definition pic16f84 : deviceInfo :=
  mkDevice "pic16f84" 0 1024 0x2000 8 0x2100 64 0 0x0000 4 0.

(** A device that answers the k-th read command with the k-th word of [ws],
    framed by a start and a stop bit that read low, and with zero once the
    list is used up. *)
Definition line_of_words (ws : list Z) : nat -> bool :=
  fun n => Z.testbit (2 * nth (n / 16) ws 0) (Z.of_nat (n mod 16)).

(** ** The flash partition table ([src/oldfirmware/include/partition.h]) *)









(** The body of a READ request: [start] in bytes 0-3, [end] in bytes 8-11. *)
Definition read_request (start end_ : Z) : SPPacket :=
  let be z := [Z.land (Z.shiftr z 24) 0xFF; Z.land (Z.shiftr z 16) 0xFF;
               Z.land (Z.shiftr z 8) 0xFF; Z.land z 0xFF] in
  mkPacket (mkHead 0 12) (be start ++ [0; 0; 0; 0] ++ be end_).

Definition empty_request : SPPacket := mkPacket (mkHead 0 0) [].

(** ** Regions *)

Inductive MemoryRegion : Type :=
| Program | Config | Data.

(** An event that belongs to no power sequence: it leaves the reset and
    power lines and the direction of the clock line alone. *)
Definition quiet (e : hw_event) : bool :=
  match e with
  | EvSet MCLR_NUM _ | EvSet VDD_NUM _ => false
  | EvInput CLOCK_NUM | EvOutput CLOCK_NUM => false
  | _ => true
  end.

(** The clock line is floated only by [_exit_program_mode] and driven only
    by [_enter_program_mode]: these events count the power-downs and
    power-ups of a trace. *)
Definition power_downs (evs : list hw_event) : nat :=
  List.length
    (filter (fun e => match e with EvInput CLOCK_NUM => true | _ => false end)
            evs).

Definition power_ups (evs : list hw_event) : nat :=
  List.length
    (filter (fun e => match e with EvOutput CLOCK_NUM => true | _ => false end)
            evs).

(** The session [s] after a run that logged [evs] (in order) on the
    hardware link, took [k] samples and left state [st] and counter [pc]. *)
Definition hw (st : prog_state) (pc : Z) (evs : list hw_event) (k : nat)
    (s : session) : session :=
  mkSession st pc (prof s) (rev evs ++ wire s) (k + samples s)
            (responses s) (console s) (stores s).

Section Firmware.

Variable io : pic_io_h.

(** The level of the DATA line at the n-th [GPIO_GET] of a run. *)
Variable din : nat -> bool.

(** The entries of [devices[]] before its terminating entry (the one whose
    [name] is null). *)
Variable devices : list deviceInfo.

Definition GPIO_GET (p : pin) (s : session) : bool * session :=
  let level := din (samples s) in
  (level,
   mkSession (_state s) (_program_counter s) (prof s)
             (EvGet p level :: wire s) (S (samples s))
             (responses s) (console s) (stores s)).

(** ** Entering and leaving programming mode *)

Definition _enter_program_mode : cmd :=
  fun s =>
    match _state s with
    | STATE_IDLE =>
        (GPIO_SET MCLR_NUM (MCLR_RESET io) ;;
         GPIO_SET VDD_NUM LOW ;;
         GPIO_SET DATA_NUM LOW ;;
         GPIO_SET CLOCK_NUM LOW ;;
         os_delay_us (DELAY_SETTLE io) ;;
         GPIO_OUTPUT DATA_NUM ;;
         GPIO_OUTPUT CLOCK_NUM ;;
         GPIO_SET MCLR_NUM (MCLR_VPP io) ;;
         os_delay_us (DELAY_TPPDP io) ;;
         GPIO_SET VDD_NUM HIGH ;;
         os_delay_us (DELAY_THLD0 io) ;;
         set_state STATE_PROGRAM ;;
         set_pc 0) s
    | _ => s
    end.

Definition _exit_program_mode : cmd :=
  fun s =>
    match _state s with
    | STATE_IDLE => s
    | _ =>
        (GPIO_SET MCLR_NUM (MCLR_RESET io) ;;
         GPIO_SET VDD_NUM LOW ;;
         GPIO_SET DATA_NUM LOW ;;
         GPIO_SET CLOCK_NUM LOW ;;
         GPIO_INPUT DATA_NUM ;;
         GPIO_INPUT CLOCK_NUM ;;
         set_state STATE_IDLE ;;
         set_pc 0) s
    end.

(** ** Bit codec *)

(** The body shared by the loops of [_send_command] (6 bits) and
    [_send_write_command] (16 bits): least significant bit first. *)
Fixpoint clock_out (bits : nat) (v : Z) : cmd :=
  match bits with
  | O => fun s => s
  | S bits' =>
      GPIO_SET CLOCK_NUM HIGH ;;
      (if Z.land v 1 =? 0 then GPIO_SET DATA_NUM LOW
       else GPIO_SET DATA_NUM HIGH) ;;
      os_delay_us (DELAY_TSET1 io) ;;
      GPIO_SET CLOCK_NUM LOW ;;
      os_delay_us (DELAY_THLD1 io) ;;
      clock_out bits' (Z.shiftr v 1)
  end.

Definition _send_command (c : Z) : cmd := clock_out 6 c.

Definition _send_simple_command (c : Z) : cmd :=
  _send_command c ;; os_delay_us (DELAY_TDLY2 io).

Definition _send_write_command (c : Z) (data : Z) : cmd :=
  _send_command c ;;
  os_delay_us (DELAY_TDLY2 io) ;;
  clock_out 16 data ;;
  os_delay_us (DELAY_TDLY2 io).

(** The loop of [_send_read_command]: each sample enters at bit 15 and the
    bits gathered so far move one place down. *)
Fixpoint clock_in (bits : nat) (data : Z) (s : session) : Z * session :=
  match bits with
  | O => (data, s)
  | S bits' =>
      let data := Z.shiftr data 1 in
      let s := (GPIO_SET CLOCK_NUM HIGH ;; os_delay_us (DELAY_TDLY3 io)) s in
      let '(level, s) := GPIO_GET DATA_NUM s in
      let data := if level then Z.lor data 0x8000 else data in
      let s := (GPIO_SET CLOCK_NUM LOW ;; os_delay_us (DELAY_THLD1 io)) s in
      clock_in bits' data s
  end.

Definition _send_read_command (c : Z) (s : session) : Z * session :=
  let s := (_send_command c ;;
            GPIO_SET DATA_NUM LOW ;;
            GPIO_INPUT DATA_NUM ;;
            os_delay_us (DELAY_TDLY2 io)) s in
  let '(data, s) := clock_in 16 0 s in
  let s := (GPIO_OUTPUT DATA_NUM ;; os_delay_us (DELAY_TDLY2 io)) s in
  (data, s).

(** ** Program-counter state machine *)

(** [while (_program_counter < addr) { increment; ++_program_counter; }].
    The counter stays below [addr], so the increment never wraps.  [fuel]
    bounds the iterations; callers pass the distance to [addr]. *)
Fixpoint advance (fuel : nat) (addr : Z) (s : session) : session :=
  match fuel with
  | O => s
  | S fuel' =>
      if _program_counter s <? addr then
        let s := _send_simple_command (CMD_INCREMENT_ADDRESS io) s in
        advance fuel' addr (set_pc (_program_counter s + 1) s)
      else s
  end.

Definition advance_to (addr : Z) (s : session) : session :=
  advance (Z.to_nat (addr - _program_counter s)) addr s.

Definition in_data (p : profile) (addr : Z) : bool :=
  (dataStart p <=? addr) && (addr <=? dataEnd p).

Definition in_config (p : profile) (addr : Z) : bool :=
  (configStart p <=? addr) && (addr <=? configEnd p).

(** Within a taken branch [addr >= dataStart] (or [configStart]), so the
    subtraction does not wrap. *)
Definition _set_program_counter (addr : Z) (s : session) : session :=
  if in_data (prof s) addr then
    (* Data memory. *)
    let addr := addr - dataStart (prof s) in
    let s :=
      if negb (prog_state_eqb (_state s) STATE_PROGRAM)
         || (addr <? _program_counter s)
      then (_exit_program_mode ;; _enter_program_mode) s
      else s in
    advance_to addr s
  else if in_config (prof s) addr then
    (* Configuration memory. *)
    let addr := addr - configStart (prof s) in
    let s :=
      match _state s with
      | STATE_IDLE =>
          (_enter_program_mode ;;
           _send_write_command (CMD_LOAD_CONFIG io) 0 ;;
           set_state STATE_CONFIG) s
      | STATE_PROGRAM =>
          (_send_write_command (CMD_LOAD_CONFIG io) 0 ;;
           set_state STATE_CONFIG ;;
           set_pc 0) s
      | STATE_CONFIG =>
          if addr <? _program_counter s then
            (_exit_program_mode ;;
             _enter_program_mode ;;
             _send_write_command (CMD_LOAD_CONFIG io) 0 ;;
             set_state STATE_CONFIG) s
          else s
      end in
    advance_to addr s
  else
    (* Program memory. *)
    let s :=
      if negb (prog_state_eqb (_state s) STATE_PROGRAM)
         || (addr <? _program_counter s)
      then (_exit_program_mode ;; _enter_program_mode) s
      else s in
    advance_to addr s.

Definition _set_erase_program_counter : cmd :=
  _exit_program_mode ;;
  _enter_program_mode ;;
  _send_write_command (CMD_LOAD_CONFIG io) 0x3FFF ;;
  set_state STATE_CONFIG.

(** ** Word access *)

Definition _read_word (addr : Z) (s : session) : Z * session :=
  let s1 := _set_program_counter addr s in
  if in_data (prof s1) addr then
    let '(raw, s2) := _send_read_command (CMD_READ_DATA_MEMORY io) s1 in
    (Z.land (Z.shiftr raw 1) 0x00FF, s2)
  else
    let '(raw, s2) := _send_read_command (CMD_READ_PROGRAM_MEMORY io) s1 in
    (Z.land (Z.shiftr raw 1) 0x3FFF, s2).

(** Config memory by relative address, for use before the flat ranges of
    the device are known. *)
Definition _read_config_word (addr : Z) (s : session) : Z * session :=
  let s :=
    match _state s with
    | STATE_IDLE =>
        (_enter_program_mode ;;
         _send_write_command (CMD_LOAD_CONFIG io) 0 ;;
         set_state STATE_CONFIG) s
    | STATE_PROGRAM =>
        (_send_write_command (CMD_LOAD_CONFIG io) 0 ;;
         set_state STATE_CONFIG ;;
         set_pc 0) s
    | STATE_CONFIG =>
        if addr <? _program_counter s then
          (_exit_program_mode ;;
           _enter_program_mode ;;
           _send_write_command (CMD_LOAD_CONFIG io) 0 ;;
           set_state STATE_CONFIG) s
        else s
    end in
  let s := advance_to addr s in
  let '(raw, s) := _send_read_command (CMD_READ_PROGRAM_MEMORY io) s in
  (Z.land (Z.shiftr raw 1) 0x3FFF, s).

(** ** Device registry and detection *)

(** The C fields are read into 64-bit statics; the sums wrap at 64 bits. *)
Definition _init_device (dev : deviceInfo) : cmd :=
  fun s =>
    let programEnd' := wrap64 (programSize dev - 1) in
    let configStart' := dev_configStart dev in
    let configEnd' := wrap64 (configStart' + configSize dev - 1) in
    let dataStart' := dev_dataStart dev in
    let dataEnd' := wrap64 (dataStart' + dataSize dev - 1) in
    let reservedStart' := wrap64 (programEnd' - reservedWords dev + 1) in
    let reservedEnd' := programEnd' in
    let s :=
      set_prof (mkProfile programEnd' configStart' configEnd' dataStart'
                          dataEnd' reservedStart' reservedEnd'
                          (dev_configSave dev) (dev_progFlashType dev)
                          (dev_dataFlashType dev)) s in
    let s :=
      (os_printf "DeviceName: %s\r\n" [PStr (name dev)] ;;
       os_printf "ProgramRange: 0000-%04X\r\n" [PInt (wrap32 programEnd')] ;;
       os_printf "ConfigRange: %04X-%04X\r\n"
                 [PInt (wrap32 configStart'); PInt (wrap32 configEnd')] ;;
       os_printf "ConfigSave: %02X\r\n" [PInt (dev_configSave dev mod 2 ^ 16)] ;;
       os_printf "DataRange: %04X-%04X\r\n"
                 [PInt (wrap32 dataStart'); PInt (wrap32 dataEnd')]) s in
    if reservedStart' <=? reservedEnd' then
      os_printf "ReservedRange: %04X-%04X\r\n"
                [PInt (wrap32 reservedStart'); PInt (wrap32 reservedEnd')] s
    else s.

(** [while (!word && addr < 16) { word |= _read_word(addr); ++addr; }] *)
Fixpoint scan_program (fuel : nat) (word addr : Z) (s : session)
  : Z * session :=
  match fuel with
  | O => (word, s)
  | S fuel' =>
      if (word =? 0) && (addr <? 16) then
        let '(w, s) := _read_word addr s in
        scan_program fuel' (Z.lor word w) (addr + 1) s
      else (word, s)
  end.

(** The [for (;;)] over [devices[]]: [None] stands for [index = -1], reached
    at the terminating entry; [Some dev] for the index of [dev]. *)
Fixpoint find_device (table : list deviceInfo) (id : Z) (s : session)
  : option deviceInfo * session :=
  match table with
  | [] => (None, s)
  | dev :: rest =>
      if deviceId dev =? Z.land id 0xFFE0 then
        (Some dev,
         sp_tcpserver_response SP_OK (bytes_of_string (name dev)) s)
      else find_device rest id s
  end.

(** Lines 328-374: from the first ["OK"] to the end of the command. *)
Definition detect_finish (id configWord : Z) (s : session)
  : option SPError * session :=
  let s := (os_printf "OK\r\n" [] ;;
            os_printf "DeviceID: %02X\r\n" [PInt id]) s in
  let '(index, s) := find_device devices id s in
  let s :=
    match index with
    | Some dev => _init_device dev s
    | None =>
        (os_printf "No device detected\r\n" [] ;;
         set_prof (default_profile io)) s
    end in
  let s := (os_printf "ConfigWord: %02X\r\n" [PInt configWord] ;;
            os_printf ".\r\n" [] ;;
            _exit_program_mode) s in
  match index with
  | None =>
      (Some SP_ERR_DEVICE_NOT_DETECTED,
       sp_tcpserver_response SP_ERR_DEVICE_NOT_DETECTED [] s)
  | Some _ => (Some SP_OK, s)
  end.

(** The DEVICE command.  The result is [None] where the C function leaves
    through [return;], without a status. *)
Definition pic_command_detect_device (req : SPPacket) (s : session)
  : option SPError * session :=
  let s := (_exit_program_mode ;;
            os_printf "Reading configuration..." []) s in
  let '(userid0, s) := _read_config_word (DEV_USERID0 io) s in
  let '(userid1, s) := _read_config_word (DEV_USERID1 io) s in
  let '(userid2, s) := _read_config_word (DEV_USERID2 io) s in
  let '(userid3, s) := _read_config_word (DEV_USERID3 io) s in
  let '(id, s) := _read_config_word (DEV_ID io) s in
  let '(configWord, s) := _read_config_word (DEV_CONFIG_WORD io) s in
  if (id =? 0) || (id =? 0x3FFF) then
    let word :=
      Z.lor (Z.lor (Z.lor (Z.lor userid0 userid1) userid2) userid3)
            configWord in
    let '(word, s) := scan_program 16 word 0 s in
    if word =? 0 then
      (None, (os_printf "ERROR\r\n" [] ;; _exit_program_mode) s)
    else detect_finish 0 configWord s
  else detect_finish id configWord s.

(** ** Streaming read *)

(** Modelled from the spec: [bigendian_deserialize_uint32], which decodes
    "a big-endian 32-bit field" of the request body; its definition is not in
    the sources.  [None] when fewer than four bytes are there. *)
Definition bigendian_deserialize_uint32 (p : list Z) : option Z :=
  match p with
  | b0 :: b1 :: b2 :: b3 :: _ =>
      Some (Z.lor (Z.lor (Z.lor (Z.shiftl (Z.land b0 0xFF) 24)
                                (Z.shiftl (Z.land b1 0xFF) 16))
                         (Z.shiftl (Z.land b2 0xFF) 8))
                  (Z.land b3 0xFF))
  | _ => None
  end.

(** Modelled from the spec: the four bytes [bigendian_serialize_uint32]
    writes, "big-endian-encode the 16-bit result into a 4-byte field"; its
    definition is not in the sources. *)
Definition bigendian_bytes (word : Z) : list Z :=
  [Z.land (Z.shiftr word 24) 0xFF; Z.land (Z.shiftr word 16) 0xFF;
   Z.land (Z.shiftr word 8) 0xFF; Z.land word 0xFF].

(** The size of the block [os_zalloc(1024)] returns. *)
Definition BUFFER_SIZE : Z := 1024.

(** A store of four bytes lies within the block. *)
Definition in_buffer (off : Z) : bool :=
  (0 <=? off) && (off + 4 <=? BUFFER_SIZE).

(** [bigendian_serialize_uint32(buffer + off, word)].  Every call is logged
    with its byte offset from the start of the block.  A store inside the
    block changes the block; one outside it lands in memory the block does not
    own, which is not tracked. *)
Definition bigendian_serialize_uint32 (buffer : list Z) (off word : Z)
    (s : session) : list Z * session :=
  let s :=
    mkSession (_state s) (_program_counter s) (prof s) (wire s) (samples s)
              (responses s) (console s) ((off, word) :: stores s) in
  if in_buffer off then
    (firstn (Z.to_nat off) buffer ++ bigendian_bytes word
       ++ skipn (Z.to_nat off + 4) buffer, s)
  else (buffer, s).

(** The loop of [pic_command_read].  [start] is a [uint32_t] and wraps;
    [count] is an [int] that only grows.  The local [length] is computed and
    never read, and is left out.  [None] when [fuel] ends before the loop
    does. *)
Fixpoint read_loop (fuel : nat) (start end_ count : Z) (activity : bool)
    (buffer : list Z) (s : session) : option session :=
  match fuel with
  | O => None
  | S fuel' =>
      if start <=? end_ then
        let '(word, s) := _read_word start s in
        let '(buffer, s) :=
          bigendian_serialize_uint32 buffer (count * 4) word s in
        let start := wrap32 (start + 1) in
        let count := count + 1 in
        let s :=
          if count =? 256 then
            sp_tcpserver_response SP_STATUS_READ_MORE (firstn 1024 buffer) s
          else s in
        let '(activity, s) :=
          if count mod 32 =? 0 then
            let activity := xorb activity true in
            (activity, GPIO_SET LED_NUM activity s)
          else (activity, s) in
        read_loop fuel' start end_ count activity buffer s
      else Some s
  end.

(** The READ command.  The fuel is one more than the number of addresses
    from [start] to [end]: enough for the loop to reach its exit test
    whenever [end] is not the largest 32-bit value.  [None] stands for an
    undersized request body or a loop that does not end. *)
Definition pic_command_read (req : SPPacket) (s : session)
  : option (SPError * session) :=
  match bigendian_deserialize_uint32 (body req),
        bigendian_deserialize_uint32 (skipn 8 (body req)) with
  | Some start, Some end_ =>
      let count := 0 in
      let activity := true in
      let buffer := repeat 0 (Z.to_nat BUFFER_SIZE) in
      match read_loop (S (Z.to_nat (end_ - start + 1))) start end_ count
                      activity buffer s with
      | Some s => Some (SP_OK, sp_tcpserver_response SP_STATUS_READ_DONE [] s)
      | None => None
      end
  | _, _ => None
  end.

(** ** Observations on a run *)

(** The pin operations of an effective [_enter_program_mode], in order. *)
Definition power_up_seq : list hw_event :=
  [EvSet MCLR_NUM (MCLR_RESET io); EvSet VDD_NUM LOW; EvSet DATA_NUM LOW;
   EvSet CLOCK_NUM LOW; EvDelay (DELAY_SETTLE io); EvOutput DATA_NUM;
   EvOutput CLOCK_NUM; EvSet MCLR_NUM (MCLR_VPP io);
   EvDelay (DELAY_TPPDP io); EvSet VDD_NUM HIGH; EvDelay (DELAY_THLD0 io)].

(** The pin operations of an effective [_exit_program_mode], in order. *)
Definition power_down_seq : list hw_event :=
  [EvSet MCLR_NUM (MCLR_RESET io); EvSet VDD_NUM LOW; EvSet DATA_NUM LOW;
   EvSet CLOCK_NUM LOW; EvInput DATA_NUM; EvInput CLOCK_NUM].

(** The 16-bit word the loop of [_send_read_command] assembles from the
    samples [n], [n+1], ... of the data line. *)
Fixpoint shift_in (bits : nat) (n : nat) (data : Z) : Z :=
  match bits with
  | O => data
  | S bits' =>
      let data := Z.shiftr data 1 in
      shift_in bits' (S n) (if din n then Z.lor data 0x8000 else data)
  end.

Definition wire_word (n : nat) : Z := shift_in 16 n 0.

(** What the k-th read command after [s] returns once framing is stripped:
    as a 14-bit program or config word, and as an 8-bit data word. *)
Definition word14 (s : session) (k : nat) : Z :=
  Z.land (Z.shiftr (wire_word (16 * k + samples s)) 1) 0x3FFF.

Definition word8 (s : session) (k : nat) : Z :=
  Z.land (Z.shiftr (wire_word (16 * k + samples s)) 1) 0x00FF.

(** The region a flat address is served in: Data first, then Config,
    Program otherwise, as the tests of [_set_program_counter] go. *)
Definition region_of (p : profile) (addr : Z) : MemoryRegion :=
  if in_data p addr then Data
  else if in_config p addr then Config
  else Program.

Definition offset_of (p : profile) (addr : Z) : Z :=
  match region_of p addr with
  | Data => addr - dataStart p
  | Config => addr - configStart p
  | Program => addr
  end.

(** The session state a region is served in. *)
Definition state_of (r : MemoryRegion) : prog_state :=
  match r with
  | Config => STATE_CONFIG
  | Program | Data => STATE_PROGRAM
  end.

(** Whether [_set_program_counter addr] has to take the device through a
    power-down and power-up from a session that is not idle. *)
Definition reset_needed (s : session) (addr : Z) : bool :=
  match _state s, region_of (prof s) addr with
  | STATE_IDLE, _ => false
  | STATE_PROGRAM, Config => false
  | STATE_CONFIG, (Program | Data) => true
  | _, _ => offset_of (prof s) addr <? _program_counter s
  end.

(** The power events [_set_program_counter addr] starts with. *)
Definition power_events (s : session) (addr : Z) : list hw_event :=
  match _state s with
  | STATE_IDLE => power_up_seq
  | _ => if reset_needed s addr then power_down_seq ++ power_up_seq else []
  end.

(** A command that only adds quiet events to the log. *)
Definition wire_only (c : cmd) : Prop :=
  exists evs,
    forallb quiet evs = true /\
    forall s, c s = hw (_state s) (_program_counter s) evs 0 s.

(** [s'] is [s] after [i] read commands and no response, profile change or
    buffer store. *)
Definition reads_on (i : nat) (s s' : session) : Prop :=
  samples s' = (16 * i + samples s)%nat /\
  responses s' = responses s /\
  prof s' = prof s /\
  stores s' = stores s.

(** The k-th word of the program scan of a detection run from [s]: it comes
    after the six configuration words. *)
Definition scan_word (s : session) (k : nat) : Z :=
  if in_data (prof s) (Z.of_nat k) then word8 s (6 + k) else word14 s (6 + k).

(** A list of "more data" responses, each with a payload of 1024 bytes. *)
Definition more_chunks (l : list (SPError * list Z)) : Prop :=
  Forall (fun r => fst r = SP_STATUS_READ_MORE /\
                   List.length (snd r) = 1024%nat) l.

(** The byte offsets [4 * count], [4 * (count + 1)], ... of [n] stores. *)
Definition store_offsets (count : Z) (n : nat) : list Z :=
  map (fun i => 4 * (count + Z.of_nat i)) (seq 0 n).

(** ** Wire-level observations *)

(** The levels written to the DATA line, in order. *)
Definition data_out (evs : list hw_event) : list bool :=
  flat_map (fun e => match e with EvSet DATA_NUM l => [l] | _ => [] end) evs.

(** The levels written to the activity indicator, in order. *)
Definition led_out (evs : list hw_event) : list bool :=
  flat_map (fun e => match e with EvSet LED_NUM l => [l] | _ => [] end) evs.

(** The number of rising edges on the CLOCK line. *)
Definition clock_pulses (evs : list hw_event) : nat :=
  List.length
    (filter (fun e => match e with EvSet CLOCK_NUM true => true | _ => false end)
            evs).

(** The level last written to the VDD line, if any. *)
Definition vdd_level (evs : list hw_event) : option bool :=
  fold_left (fun acc e => match e with EvSet VDD_NUM l => Some l | _ => acc end)
            evs None.

(** The session state agrees with the power line: the device is powered
    exactly when the session is not idle.  Before the first write to VDD the
    device counts as unpowered. *)
Definition power_tracked (s : session) : Prop :=
  match vdd_level (trace s) with
  | Some l => l
  | None => false
  end = negb (prog_state_eqb (_state s) STATE_IDLE).

(** The bits 0 to [n - 1] of [v], least significant first. *)
Definition bits_of (n : nat) (v : Z) : list bool :=
  map (fun j => Z.testbit v (Z.of_nat j)) (seq 0 n).

(** One bit clocked out: the loop body of [_send_command]. *)
Definition strobe (level : bool) : list hw_event :=
  [EvSet CLOCK_NUM HIGH; EvSet DATA_NUM level; EvDelay (DELAY_TSET1 io);
   EvSet CLOCK_NUM LOW; EvDelay (DELAY_THLD1 io)].

(** The events of [clock_out bits v]. *)
Fixpoint clock_out_events (bits : nat) (v : Z) : list hw_event :=
  match bits with
  | O => []
  | S bits' =>
      strobe (negb (Z.land v 1 =? 0)) ++ clock_out_events bits' (Z.shiftr v 1)
  end.

Definition simple_command_events (c : Z) : list hw_event :=
  clock_out_events 6 c ++ [EvDelay (DELAY_TDLY2 io)].

Definition write_command_events (c data : Z) : list hw_event :=
  clock_out_events 6 c ++ [EvDelay (DELAY_TDLY2 io)]
    ++ clock_out_events 16 data ++ [EvDelay (DELAY_TDLY2 io)].

(** The events of [clock_in bits] from sample [n] on. *)
Fixpoint clock_in_events (bits : nat) (n : nat) : list hw_event :=
  match bits with
  | O => []
  | S bits' =>
      [EvSet CLOCK_NUM HIGH; EvDelay (DELAY_TDLY3 io); EvGet DATA_NUM (din n);
       EvSet CLOCK_NUM LOW; EvDelay (DELAY_THLD1 io)]
        ++ clock_in_events bits' (S n)
  end.

Definition read_command_events (c : Z) (n : nat) : list hw_event :=
  clock_out_events 6 c
    ++ [EvSet DATA_NUM LOW; EvInput DATA_NUM; EvDelay (DELAY_TDLY2 io)]
    ++ clock_in_events 16 n
    ++ [EvOutput DATA_NUM; EvDelay (DELAY_TDLY2 io)].

(** [k] "increment address" commands. *)
Definition increments (k : nat) : list hw_event :=
  List.concat (repeat (simple_command_events (CMD_INCREMENT_ADDRESS io)) k).

(** A move that needs neither power event nor mode switch: the session is in
    the state that serves the target and the counter is not past it. *)
Definition plain_forward (s : session) (addr : Z) : bool :=
  prog_state_eqb (_state s) (state_of (region_of (prof s) addr))
  && negb (offset_of (prof s) addr <? _program_counter s).

(** The load-config command [_set_program_counter addr] sends, if any. *)
Definition config_switch (s : session) (addr : Z) : list hw_event :=
  match region_of (prof s) addr with
  | Config =>
      if plain_forward s addr then []
      else write_command_events (CMD_LOAD_CONFIG io) 0
  | Program | Data => []
  end.

(** The counter value the increments of [_set_program_counter addr] start
    from. *)
Definition move_base (s : session) (addr : Z) : Z :=
  if plain_forward s addr then _program_counter s else 0.

(** The value [_read_word (start + i)] returns as the i-th read of a run
    from [s]. *)
Definition read_value (s : session) (start : Z) (i : nat) : Z :=
  if in_data (prof s) (start + Z.of_nat i) then word8 s i else word14 s i.

(** [k] levels that alternate, starting with [b]. *)
Fixpoint alternate (b : bool) (k : nat) : list bool :=
  match k with
  | O => []
  | S k' => b :: alternate (negb b) k'
  end.

(** [s'] is [s] after [i] read commands, under the same profile. *)
Definition sampled (i : nat) (s s' : session) : Prop :=
  samples s' = (16 * i + samples s)%nat /\ prof s' = prof s.

(** The events a read by relative config address starts with, by the state
    it is called in. *)
Definition config_entry (addr : Z) (s : session) : list hw_event :=
  match _state s with
  | STATE_IDLE =>
      power_up_seq ++ write_command_events (CMD_LOAD_CONFIG io) 0
        ++ increments (Z.to_nat addr)
  | STATE_PROGRAM =>
      write_command_events (CMD_LOAD_CONFIG io) 0 ++ increments (Z.to_nat addr)
  | STATE_CONFIG =>
      if addr <? _program_counter s then
        power_down_seq ++ power_up_seq
          ++ write_command_events (CMD_LOAD_CONFIG io) 0
          ++ increments (Z.to_nat addr)
      else increments (Z.to_nat (addr - _program_counter s))
  end.

(** The bytes of the words 0 to [k - 1] of a range read from [s], in the
    order they enter the buffer. *)
Definition encoded (s : session) (start : Z) (k : nat) : list Z :=
  flat_map bigendian_bytes (map (read_value s start) (seq 0 k)).

(** * Properties *)

(** ** Logs and hardware-only runs *)

Lemma hw_hw st1 pc1 e1 k1 st2 pc2 e2 k2 s :
  hw st2 pc2 e2 k2 (hw st1 pc1 e1 k1 s) = hw st2 pc2 (e1 ++ e2) (k1 + k2) s.
Proof.
  unfold hw; simpl.
  rewrite rev_app_distr, app_assoc.
  replace (k2 + (k1 + samples s))%nat with (k1 + k2 + samples s)%nat by lia.
  reflexivity.
Qed.

Lemma hw_state st pc evs k s : _state (hw st pc evs k s) = st.
Proof. reflexivity. Qed.

Lemma hw_pc st pc evs k s : _program_counter (hw st pc evs k s) = pc.
Proof. reflexivity. Qed.

Lemma hw_prof st pc evs k s : prof (hw st pc evs k s) = prof s.
Proof. reflexivity. Qed.

Lemma hw_samples st pc evs k s :
  samples (hw st pc evs k s) = (k + samples s)%nat.
Proof. reflexivity. Qed.

Lemma hw_responses st pc evs k s : responses (hw st pc evs k s) = responses s.
Proof. reflexivity. Qed.

Lemma set_state_hw st' st pc evs k s :
  set_state st' (hw st pc evs k s) = hw st' pc evs k s.
Proof. reflexivity. Qed.

Lemma set_pc_hw pc' st pc evs k s :
  set_pc pc' (hw st pc evs k s) = hw st pc' evs k s.
Proof. reflexivity. Qed.

Lemma hw_id s : hw (_state s) (_program_counter s) [] 0 s = s.
Proof. now destruct s. Qed.

Lemma trace_hw st pc evs k s : trace (hw st pc evs k s) = trace s ++ evs.
Proof.
  unfold trace, hw; simpl.
  now rewrite rev_app_distr, rev_involutive.
Qed.

Lemma power_downs_app a b :
  power_downs (a ++ b) = (power_downs a + power_downs b)%nat.
Proof. unfold power_downs. now rewrite filter_app, length_app. Qed.

Lemma power_ups_app a b :
  power_ups (a ++ b) = (power_ups a + power_ups b)%nat.
Proof. unfold power_ups. now rewrite filter_app, length_app. Qed.

Lemma quiet_power_downs evs :
  forallb quiet evs = true -> power_downs evs = 0%nat.
Proof.
  unfold power_downs.
  induction evs as [|e evs IH]; simpl; [easy|].
  intros H; apply andb_true_iff in H as [He Hevs].
  destruct e as [[] ?|[]|[]|? ?|?]; simpl in *; try discriminate; auto.
Qed.

Lemma quiet_power_ups evs :
  forallb quiet evs = true -> power_ups evs = 0%nat.
Proof.
  unfold power_ups.
  induction evs as [|e evs IH]; simpl; [easy|].
  intros H; apply andb_true_iff in H as [He Hevs].
  destruct e as [[] ?|[]|[]|? ?|?]; simpl in *; try discriminate; auto.
Qed.

Lemma wire_only_emit e : quiet e = true -> wire_only (emit e).
Proof.
  intros He. exists [e]. split.
  - simpl. now rewrite He.
  - now intros [].
Qed.

Lemma wire_only_skip : wire_only (fun s => s).
Proof.
  exists []. split; [reflexivity|]. intros s. now rewrite hw_id.
Qed.

Lemma wire_only_seq a b : wire_only a -> wire_only b -> wire_only (a ;; b).
Proof.
  intros (ea & Qa & Ha) (eb & Qb & Hb).
  exists (ea ++ eb). split.
  - rewrite forallb_app, Qa, Qb. reflexivity.
  - intros s. unfold andthen. rewrite Hb, Ha. simpl. apply hw_hw.
Qed.

Lemma wire_only_clock_out bits : forall v, wire_only (clock_out bits v).
Proof.
  induction bits as [|bits IH]; intros v; simpl.
  - apply wire_only_skip.
  - apply wire_only_seq; [apply wire_only_emit; reflexivity|].
    apply wire_only_seq;
      [destruct (Z.land v 1 =? 0); apply wire_only_emit; reflexivity|].
    do 3 (apply wire_only_seq; [apply wire_only_emit; reflexivity|]).
    apply IH.
Qed.

Lemma wire_only_send_command c : wire_only (_send_command c).
Proof. apply wire_only_clock_out. Qed.

Lemma wire_only_send_simple_command c : wire_only (_send_simple_command c).
Proof.
  apply wire_only_seq; [apply wire_only_send_command|].
  apply wire_only_emit; reflexivity.
Qed.

Lemma wire_only_send_write_command c data :
  wire_only (_send_write_command c data).
Proof.
  unfold _send_write_command.
  apply wire_only_seq; [apply wire_only_send_command|].
  apply wire_only_seq; [apply wire_only_emit; reflexivity|].
  apply wire_only_seq; [apply wire_only_clock_out|].
  apply wire_only_emit; reflexivity.
Qed.

(** ** Entering and leaving programming mode *)

Lemma enter_program_mode_hw s :
  _enter_program_mode s =
  match _state s with
  | STATE_IDLE => hw STATE_PROGRAM 0 power_up_seq 0 s
  | _ => s
  end.
Proof. destruct s as [[] ? ? ? ? ? ? ?]; reflexivity. Qed.

Lemma exit_program_mode_hw s :
  _exit_program_mode s =
  match _state s with
  | STATE_IDLE => s
  | _ => hw STATE_IDLE 0 power_down_seq 0 s
  end.
Proof. destruct s as [[] ? ? ? ? ? ? ?]; reflexivity. Qed.

Lemma exit_program_mode_idle s : _state (_exit_program_mode s) = STATE_IDLE.
Proof. rewrite exit_program_mode_hw. now destruct (_state s) eqn:E. Qed.

(** Leaving and re-entering programming mode from any state. *)
Lemma reset_hw s :
  _enter_program_mode (_exit_program_mode s) =
  hw STATE_PROGRAM 0
     (match _state s with
      | STATE_IDLE => power_up_seq
      | _ => power_down_seq ++ power_up_seq
      end) 0 s.
Proof.
  rewrite exit_program_mode_hw, enter_program_mode_hw.
  destruct (_state s) eqn:E; simpl; rewrite ?E, ?hw_hw; reflexivity.
Qed.

(** ** The read command *)

Lemma clock_in_hw bits :
  forall data s,
  exists evs,
    forallb quiet evs = true /\
    clock_in bits data s =
    (shift_in bits (samples s) data,
     hw (_state s) (_program_counter s) evs bits s).
Proof.
  induction bits as [|bits IH]; intros data s.
  - exists []. split; [reflexivity|]. simpl. now rewrite hw_id.
  - cbn [clock_in shift_in].
    set (s1 := hw (_state s) (_program_counter s)
                 [EvSet CLOCK_NUM HIGH; EvDelay (DELAY_TDLY3 io);
                  EvGet DATA_NUM (din (samples s));
                  EvSet CLOCK_NUM LOW; EvDelay (DELAY_THLD1 io)] 1 s).
    set (data1 := if din (samples s)
                  then Z.lor (Z.shiftr data 1) 0x8000 else Z.shiftr data 1).
    destruct (IH data1 s1) as (evs & Q & H).
    exists ([EvSet CLOCK_NUM HIGH; EvDelay (DELAY_TDLY3 io);
             EvGet DATA_NUM (din (samples s));
             EvSet CLOCK_NUM LOW; EvDelay (DELAY_THLD1 io)] ++ evs).
    split; [simpl; exact Q|].
    unfold andthen, GPIO_GET, GPIO_SET, os_delay_us, emit. cbn [samples wire].
    change (mkSession _ _ _ _ _ _ _ _) with s1 at 1.
    unfold s1 in H |- *.
    rewrite hw_hw, hw_state, hw_pc, hw_samples in H.
    exact H.
Qed.

Lemma send_read_command_hw c s :
  exists evs,
    forallb quiet evs = true /\
    _send_read_command c s =
    (wire_word (samples s), hw (_state s) (_program_counter s) evs 16 s).
Proof.
  unfold _send_read_command.
  assert (W : wire_only (_send_command c ;; GPIO_SET DATA_NUM LOW ;;
                         GPIO_INPUT DATA_NUM ;; os_delay_us (DELAY_TDLY2 io))).
  { apply wire_only_seq; [apply wire_only_send_command|].
    do 2 (apply wire_only_seq; [apply wire_only_emit; reflexivity|]).
    apply wire_only_emit; reflexivity. }
  destruct W as (e1 & Q1 & H1). rewrite H1.
  destruct (clock_in_hw 16 0 (hw (_state s) (_program_counter s) e1 0 s))
    as (e2 & Q2 & H2).
  rewrite H2, hw_state, hw_pc, hw_samples, hw_hw. cbn [Nat.add].
  exists (e1 ++ e2 ++ [EvOutput DATA_NUM; EvDelay (DELAY_TDLY2 io)]).
  split.
  - rewrite !forallb_app, Q1, Q2. reflexivity.
  - unfold wire_word. f_equal.
    rewrite app_assoc.
    rewrite <- (hw_hw (_state s) (_program_counter s) (e1 ++ e2) 16
                      (_state s) (_program_counter s) _ 0 s).
    reflexivity.
Qed.

(** A 16-bit value stays one when a sample is shifted in. *)
Lemma shift_in_range bits :
  forall n data, 0 <= data < 2 ^ 16 -> 0 <= shift_in bits n data < 2 ^ 16.
Proof.
  induction bits as [|bits IH]; intros n data H; simpl; [exact H|].
  apply IH.
  assert (S : 0 <= Z.shiftr data 1 < 2 ^ 15).
  { rewrite Z.shiftr_div_pow2 by lia. change (2 ^ 1) with 2.
    split; [apply Z.div_pos; lia|apply Z.div_lt_upper_bound; lia]. }
  destruct (din n); [|lia].
  split; [apply Z.lor_nonneg; lia|].
  destruct (Z.eq_dec (Z.shiftr data 1) 0) as [->|NZ]; [reflexivity|].
  apply Z.log2_lt_pow2; [|rewrite Z.log2_lor by lia].
  - assert (0 <= Z.lor (Z.shiftr data 1) 32768) by (apply Z.lor_nonneg; lia).
    assert (Z.lor (Z.shiftr data 1) 32768 <> 0).
    { intros E. apply Z.lor_eq_0_iff in E. lia. }
    lia.
  - apply Z.max_lub_lt; [|reflexivity].
    apply Z.log2_lt_pow2; lia.
Qed.

Lemma wire_word_range n : 0 <= wire_word n < 2 ^ 16.
Proof. apply shift_in_range. lia. Qed.

(** ** The increment loop *)

Lemma advance_hw fuel :
  forall addr s,
    (Z.to_nat (addr - _program_counter s) <= fuel)%nat ->
    exists evs,
      forallb quiet evs = true /\
      advance fuel addr s =
      hw (_state s) (Z.max (_program_counter s) addr) evs 0 s.
Proof.
  induction fuel as [|fuel IH]; intros addr s Hf.
  - exists []. split; [reflexivity|]. simpl.
    replace (Z.max (_program_counter s) addr) with (_program_counter s)
      by lia.
    now rewrite hw_id.
  - cbn [advance].
    destruct (_program_counter s <? addr) eqn:E.
    + apply Z.ltb_lt in E.
      destruct (wire_only_send_simple_command (CMD_INCREMENT_ADDRESS io))
        as (e1 & Q1 & H1).
      rewrite H1, hw_pc.
      set (s1 := set_pc _ _).
      assert (E1 : s1 = hw (_state s) (_program_counter s + 1) e1 0 s)
        by reflexivity.
      destruct (IH addr s1) as (e2 & Q2 & H2).
      { rewrite E1, hw_pc. lia. }
      exists (e1 ++ e2). split.
      * now rewrite forallb_app, Q1, Q2.
      * rewrite H2, E1, hw_state, hw_pc, hw_hw. f_equal. lia.
    + apply Z.ltb_ge in E.
      exists []. split; [reflexivity|].
      replace (Z.max (_program_counter s) addr) with (_program_counter s)
        by lia.
      now rewrite hw_id.
Qed.

Lemma advance_to_hw addr s :
  exists evs,
    forallb quiet evs = true /\
    advance_to addr s =
    hw (_state s) (Z.max (_program_counter s) addr) evs 0 s.
Proof. apply advance_hw. lia. Qed.

(** The loop leaves through its test: the counter is not below [addr]. *)
Lemma advance_to_exit addr s :
  (_program_counter (advance_to addr s) <? addr) = false.
Proof.
  destruct (advance_to_hw addr s) as (evs & _ & H).
  rewrite H, hw_pc. apply Z.ltb_ge. lia.
Qed.

(** ** The shape of a counter move *)

Lemma in_data_bounds p addr :
  in_data p addr = true -> dataStart p <= addr <= dataEnd p.
Proof. unfold in_data. intros H. apply andb_true_iff in H. lia. Qed.

Lemma in_config_bounds p addr :
  in_config p addr = true -> configStart p <= addr <= configEnd p.
Proof. unfold in_config. intros H. apply andb_true_iff in H. lia. Qed.

Lemma offset_of_nonneg p addr : 0 <= addr -> 0 <= offset_of p addr.
Proof.
  intros H. unfold offset_of, region_of.
  destruct (in_data p addr) eqn:D;
    [apply in_data_bounds in D; lia|].
  destruct (in_config p addr) eqn:C;
    [apply in_config_bounds in C; lia|lia].
Qed.

(** A counter move is the power events the session calls for, then quiet
    events only; it ends in the state of the target and, for an address of
    the unsigned type, at the offset of the target. *)
Lemma set_program_counter_hw addr s :
  exists pc rest,
    forallb quiet rest = true /\
    _set_program_counter addr s =
    hw (state_of (region_of (prof s) addr)) pc
       (power_events s addr ++ rest) 0 s /\
    (0 <= addr -> pc = offset_of (prof s) addr).
Proof.
  pose proof (offset_of_nonneg (prof s) addr) as Hoff.
  destruct (wire_only_send_write_command (CMD_LOAD_CONFIG io) 0)
    as (lc & Qlc & Hlc).
  unfold _set_program_counter, power_events, reset_needed, offset_of,
    region_of in *.
  destruct (in_data (prof s) addr) eqn:D;
    [|destruct (in_config (prof s) addr) eqn:C].
  - (* Data *)
    destruct (_state s) eqn:St; cbn [prog_state_eqb negb orb state_of];
      try destruct (addr - dataStart (prof s) <? _program_counter s) eqn:B;
      try apply Z.ltb_ge in B;
      unfold andthen; rewrite ?reset_hw, ?St;
      match goal with
      | |- context [advance_to ?a ?t] =>
          destruct (advance_to_hw a t) as (e & Q & H)
      end;
      rewrite H, ?hw_hw, ?hw_state, ?hw_pc, ?St;
      eexists; exists e; (split; [exact Q|]);
      rewrite ?app_nil_l; (split; [reflexivity|lia]).
  - (* Config *)
    destruct (_state s) eqn:St; cbn [state_of];
      try destruct (addr - configStart (prof s) <? _program_counter s) eqn:B;
      try apply Z.ltb_ge in B;
      unfold andthen;
      rewrite ?reset_hw, ?enter_program_mode_hw, ?St, ?Hlc, ?hw_state,
        ?hw_pc, ?hw_hw, ?set_state_hw, ?set_pc_hw;
      match goal with
      | |- context [advance_to ?a ?t] =>
          destruct (advance_to_hw a t) as (e & Q & H)
      end;
      rewrite H, ?hw_hw, ?hw_state, ?hw_pc, ?St;
      try (eexists; exists (lc ++ e);
           split; [now rewrite forallb_app, Qlc, Q|];
           rewrite <- ?app_assoc; split; [reflexivity|lia]).
    eexists; exists e. split; [exact Q|].
    rewrite app_nil_l. split; [reflexivity|lia].
  - (* Program *)
    destruct (_state s) eqn:St; cbn [prog_state_eqb negb orb state_of];
      try destruct (addr <? _program_counter s) eqn:B;
      try apply Z.ltb_ge in B;
      unfold andthen; rewrite ?reset_hw, ?St;
      match goal with
      | |- context [advance_to ?a ?t] =>
          destruct (advance_to_hw a t) as (e & Q & H)
      end;
      rewrite H, ?hw_hw, ?hw_state, ?hw_pc, ?St;
      eexists; exists e; (split; [exact Q|]);
      rewrite ?app_nil_l; (split; [reflexivity|lia]).
Qed.

Lemma set_program_counter_prof addr s :
  prof (_set_program_counter addr s) = prof s.
Proof.
  destruct (set_program_counter_hw addr s) as (pc & rest & _ & H & _).
  now rewrite H.
Qed.

(** ** Word reads *)

Lemma read_word_hw addr s :
  exists pc rest,
    forallb quiet rest = true /\
    _read_word addr s =
    ((if in_data (prof s) addr then word8 s 0 else word14 s 0),
     hw (state_of (region_of (prof s) addr)) pc
        (power_events s addr ++ rest) 16 s) /\
    (0 <= addr -> pc = offset_of (prof s) addr).
Proof.
  unfold _read_word. rewrite set_program_counter_prof.
  destruct (set_program_counter_hw addr s) as (pc & r1 & Q1 & H1 & Hpc).
  rewrite H1.
  exists pc.
  destruct (in_data (prof s) addr);
    match goal with
    | |- context [_send_read_command ?c ?t] =>
        destruct (send_read_command_hw c t) as (r2 & Q2 & H2)
    end;
    rewrite H2, hw_samples, hw_state, hw_pc, hw_hw;
    exists (r1 ++ r2);
    (split; [now rewrite forallb_app, Q1, Q2|]);
    rewrite app_assoc; (split; [reflexivity|exact Hpc]).
Qed.

Lemma read_config_word_hw addr s :
  exists pc evs,
    _read_config_word addr s = (word14 s 0, hw STATE_CONFIG pc evs 16 s).
Proof.
  destruct (wire_only_send_write_command (CMD_LOAD_CONFIG io) 0)
    as (lc & Qlc & Hlc).
  unfold _read_config_word.
  destruct (_state s) eqn:St;
    try destruct (addr <? _program_counter s) eqn:B;
    unfold andthen;
    rewrite ?reset_hw, ?enter_program_mode_hw, ?St, ?Hlc, ?hw_state,
      ?hw_pc, ?hw_hw, ?set_state_hw, ?set_pc_hw;
    match goal with
    | |- context [advance_to ?a ?t] =>
        destruct (advance_to_hw a t) as (e & Q & H)
    end;
    rewrite H, ?hw_hw, ?hw_state, ?hw_pc, ?St;
    match goal with
    | |- context [_send_read_command ?c ?t] =>
        destruct (send_read_command_hw c t) as (r2 & Q2 & H2)
    end;
    rewrite H2, ?hw_samples, ?hw_state, ?hw_pc, ?hw_hw, ?St;
    do 2 eexists; reflexivity.
Qed.

(** ** The program-counter state machine *)

Lemma power_downs_down_seq : power_downs power_down_seq = 1%nat.
Proof. reflexivity. Qed.

Lemma power_downs_up_seq : power_downs power_up_seq = 0%nat.
Proof. reflexivity. Qed.

Lemma power_ups_down_seq : power_ups power_down_seq = 0%nat.
Proof. reflexivity. Qed.

Lemma power_ups_up_seq : power_ups power_up_seq = 1%nat.
Proof. reflexivity. Qed.

Lemma state_of_not_idle r : state_of r <> STATE_IDLE.
Proof. destruct r; discriminate. Qed.

Lemma offset_of_mono p a1 a2 :
  a1 < a2 -> region_of p a1 = region_of p a2 ->
  offset_of p a1 < offset_of p a2.
Proof.
  intros Hlt Hr. unfold offset_of. rewrite <- Hr.
  destruct (region_of p a1); lia.
Qed.

(** From a session in programming mode, a Config target needs no reset
    cycle: the load-config command switches the device over. *)
Lemma set_program_counter_program_to_config addr s :
  _state s = STATE_PROGRAM ->
  region_of (prof s) addr = Config ->
  exists rest,
    forallb quiet rest = true /\
    trace (_set_program_counter addr s) = trace s ++ rest /\
    _state (_set_program_counter addr s) = STATE_CONFIG.
Proof.
  intros St R.
  destruct (set_program_counter_hw addr s) as (pc & rest & Q & H & _).
  exists rest. rewrite H, trace_hw, hw_state, R.
  unfold power_events, reset_needed. rewrite St, R.
  repeat split; assumption || reflexivity.
Qed.

(** C6.  From an idle session and for [a1 < a2] in one region: visiting [a1]
    then [a2] powers the device up once (the initial entry) and never down;
    visiting [a2] then [a1] makes the second call start with exactly one
    reset cycle, followed by quiet events only, and leaves the counter at the
    offset of [a1]. *)
Theorem same_region_visits a1 a2 s :
  0 <= a1 -> a1 < a2 ->
  region_of (prof s) a1 = region_of (prof s) a2 ->
  _state s = STATE_IDLE ->
  (exists evs,
      trace (_set_program_counter a2 (_set_program_counter a1 s)) =
      trace s ++ evs /\
      power_downs evs = 0%nat /\ power_ups evs = 1%nat) /\
  (exists rest,
      forallb quiet rest = true /\
      trace (_set_program_counter a1 (_set_program_counter a2 s)) =
      trace (_set_program_counter a2 s)
        ++ power_down_seq ++ power_up_seq ++ rest /\
      _program_counter (_set_program_counter a1 (_set_program_counter a2 s)) =
      offset_of (prof s) a1).
Proof.
  intros H0 Hlt Hr St.
  pose proof (offset_of_mono (prof s) a1 a2 Hlt Hr) as Hoff.
  split.
  - destruct (set_program_counter_hw a1 s) as (pc1 & r1 & Q1 & H1 & P1).
    specialize (P1 H0).
    destruct (set_program_counter_hw a2 (_set_program_counter a1 s))
      as (pc2 & r2 & Q2 & H2 & _).
    rewrite H2, trace_hw, H1, trace_hw.
    unfold power_events at 2, reset_needed.
    rewrite hw_state, hw_pc, hw_prof, <- Hr, P1.
    replace (offset_of (prof s) a2 <? offset_of (prof s) a1) with false
      by (symmetry; apply Z.ltb_ge; lia).
    unfold power_events. rewrite St.
    exists (power_up_seq ++ r1 ++ r2).
    repeat split.
    + destruct (region_of (prof s) a1); cbn [state_of app];
        now rewrite <- !app_assoc.
    + rewrite !power_downs_app, power_downs_up_seq,
        (quiet_power_downs r1 Q1), (quiet_power_downs r2 Q2). reflexivity.
    + rewrite !power_ups_app, power_ups_up_seq,
        (quiet_power_ups r1 Q1), (quiet_power_ups r2 Q2). reflexivity.
  - destruct (set_program_counter_hw a2 s) as (pc2 & r2 & Q2 & H2 & P2).
    assert (H2' : 0 <= a2) by lia. specialize (P2 H2').
    destruct (set_program_counter_hw a1 (_set_program_counter a2 s))
      as (pc1 & r1 & Q1 & H1 & P1).
    specialize (P1 H0).
    exists r1. split; [exact Q1|].
    rewrite H1, trace_hw, hw_pc, P1, set_program_counter_prof.
    split; [|reflexivity].
    unfold power_events, reset_needed.
    rewrite set_program_counter_prof.
    assert (E2 : _state (_set_program_counter a2 s) =
                 state_of (region_of (prof s) a2)) by now rewrite H2.
    assert (E3 : _program_counter (_set_program_counter a2 s) =
                 offset_of (prof s) a2) by now rewrite H2, hw_pc.
    rewrite E2, E3, Hr.
    replace (offset_of (prof s) a1 <? offset_of (prof s) a2) with true
      by (symmetry; apply Z.ltb_lt; lia).
    destruct (region_of (prof s) a2); cbn [state_of];
      now rewrite <- !app_assoc.
Qed.

(** ** Word access *)

(** C7.  [_read_word addr] moves the counter to [addr] first; for an address
    within the Data bounds it then issues the data-memory read command and
    returns [(raw >> 1) & 0x00FF], otherwise it issues the program-memory
    read command and returns [(raw >> 1) & 0x3FFF], where [raw] is the word
    the read command returned, a 16-bit value. *)
Theorem read_word_spec addr s :
  let s1 := _set_program_counter addr s in
  let opcode := if in_data (prof s) addr then CMD_READ_DATA_MEMORY io
                else CMD_READ_PROGRAM_MEMORY io in
  let mask := if in_data (prof s) addr then 0x00FF else 0x3FFF in
  let raw := fst (_send_read_command opcode s1) in
  0 <= raw < 2 ^ 16 /\
  _read_word addr s =
  (Z.land (Z.shiftr raw 1) mask, snd (_send_read_command opcode s1)).
Proof.
  cbv zeta. split.
  - destruct (send_read_command_hw
                (if in_data (prof s) addr then CMD_READ_DATA_MEMORY io
                 else CMD_READ_PROGRAM_MEMORY io)
                (_set_program_counter addr s)) as (evs & _ & H).
    rewrite H. apply wire_word_range.
  - unfold _read_word. rewrite set_program_counter_prof.
    destruct (in_data (prof s) addr);
      destruct (_send_read_command _ _); reflexivity.
Qed.

(** C10 (as amended).  On a config address that lies outside the Data
    bounds of the active profile, reading by relative address and reading by
    flat address are the same run: same value, same session, same log, from
    every starting state.  (Inside the Data bounds the flat path takes the
    address for data memory: [_set_program_counter] tests the Data bounds
    first.) *)
Theorem read_config_word_flat off s :
  0 <= off ->
  configStart (prof s) + off <= configEnd (prof s) ->
  ~ (dataStart (prof s) <= configStart (prof s) + off <= dataEnd (prof s)) ->
  _read_config_word off s = _read_word (configStart (prof s) + off) s.
Proof.
  intros H0 Hin Hout.
  assert (D : in_data (prof s) (configStart (prof s) + off) = false).
  { destruct (in_data (prof s) (configStart (prof s) + off)) eqn:D;
      [|reflexivity].
    apply in_data_bounds in D. contradiction. }
  assert (C : in_config (prof s) (configStart (prof s) + off) = true).
  { unfold in_config. apply andb_true_iff. split; apply Z.leb_le; lia. }
  unfold _read_word. rewrite set_program_counter_prof, D.
  unfold _set_program_counter. rewrite D, C.
  replace (configStart (prof s) + off - configStart (prof s)) with off by lia.
  reflexivity.
Qed.

(** ** Detection *)

Lemma reads_on_refl s : reads_on 0 s s.
Proof. repeat split. Qed.

Lemma reads_on_exit i s s' :
  reads_on i s s' -> reads_on i s (_exit_program_mode s').
Proof.
  intros (A & B & C & D). rewrite exit_program_mode_hw.
  destruct (_state s'); repeat split; assumption.
Qed.

Lemma reads_on_printf i s s' fmt args :
  reads_on i s s' -> reads_on i s (os_printf fmt args s').
Proof. intros (A & B & C & D). repeat split; assumption. Qed.

Lemma word14_shift i s s' k :
  samples s' = (16 * i + samples s)%nat -> word14 s' k = word14 s (i + k).
Proof.
  intros E. unfold word14. rewrite E. do 3 f_equal. lia.
Qed.

Lemma word8_shift i s s' k :
  samples s' = (16 * i + samples s)%nat -> word8 s' k = word8 s (i + k).
Proof.
  intros E. unfold word8. rewrite E. do 3 f_equal. lia.
Qed.

Lemma reads_on_read_config_word i s s' addr :
  reads_on i s s' ->
  fst (_read_config_word addr s') = word14 s i /\
  reads_on (S i) s (snd (_read_config_word addr s')) /\
  _state (snd (_read_config_word addr s')) = STATE_CONFIG.
Proof.
  intros (A & B & C & D).
  destruct (read_config_word_hw addr s') as (pc & evs & H).
  rewrite H. cbn [fst snd]. split; [|split].
  - rewrite (word14_shift i s s' 0 A). f_equal. lia.
  - unfold reads_on.
    rewrite hw_samples, hw_responses, hw_prof, A, B, C.
    repeat split; [lia|exact D].
  - reflexivity.
Qed.

Lemma reads_on_read_word i s s' addr :
  reads_on i s s' ->
  fst (_read_word addr s') =
  (if in_data (prof s) addr then word8 s i else word14 s i) /\
  reads_on (S i) s (snd (_read_word addr s')).
Proof.
  intros (A & B & C & D).
  destruct (read_word_hw addr s') as (pc & evs & _ & H & _).
  rewrite H. cbn [fst snd]. split.
  - rewrite C, (word14_shift i s s' 0 A), (word8_shift i s s' 0 A).
    replace (i + 0)%nat with i by lia. reflexivity.
  - unfold reads_on.
    rewrite hw_samples, hw_responses, hw_prof, A, B, C.
    repeat split; [lia|exact D].
Qed.

Lemma scan_program_zero s fuel :
  forall k s1,
    reads_on (6 + k) s s1 ->
    (k + fuel = 16)%nat ->
    (forall j, (k <= j < 16)%nat -> scan_word s j = 0) ->
    fst (scan_program fuel 0 (Z.of_nat k) s1) = 0 /\
    reads_on 22 s (snd (scan_program fuel 0 (Z.of_nat k) s1)).
Proof.
  induction fuel as [|fuel IH]; intros k s1 R Hk Hz.
  - cbn [scan_program fst snd]. split; [reflexivity|].
    replace 22%nat with (6 + k)%nat by lia. exact R.
  - cbn [scan_program].
    replace (Z.of_nat k <? 16) with true by (symmetry; apply Z.ltb_lt; lia).
    cbn [Z.eqb andb].
    destruct (reads_on_read_word (6 + k) s s1 (Z.of_nat k) R) as (V & R').
    destruct (_read_word (Z.of_nat k) s1) as (w, s2). cbn [fst snd] in V, R'.
    assert (W : w = 0).
    { rewrite V. apply (Hz k). lia. }
    rewrite W. cbn [Z.lor].
    replace (Z.of_nat k + 1) with (Z.of_nat (S k)) by lia.
    apply IH.
    + replace (6 + S k)%nat with (S (6 + k)) by lia. exact R'.
    + lia.
    + intros j Hj. apply Hz. lia.
Qed.

Lemma scan_program_nonzero fuel word addr s :
  word <> 0 -> scan_program fuel word addr s = (word, s).
Proof.
  intros H. destruct fuel; [reflexivity|]. cbn [scan_program].
  apply Z.eqb_neq in H. now rewrite H.
Qed.

Lemma find_device_find table id s :
  find_device table id s =
  match find (fun dev => deviceId dev =? Z.land id 0xFFE0) table with
  | Some dev =>
      (Some dev, sp_tcpserver_response SP_OK (bytes_of_string (name dev)) s)
  | None => (None, s)
  end.
Proof.
  induction table as [|dev rest IH]; [reflexivity|].
  cbn [find_device find].
  destruct (deviceId dev =? Z.land id 65504); [reflexivity|exact IH].
Qed.

Lemma init_device_frame dev s :
  _state (_init_device dev s) = _state s /\
  responses (_init_device dev s) = responses s /\
  prof (_init_device dev s) =
  mkProfile (wrap64 (programSize dev - 1))
            (dev_configStart dev)
            (wrap64 (dev_configStart dev + configSize dev - 1))
            (dev_dataStart dev)
            (wrap64 (dev_dataStart dev + dataSize dev - 1))
            (wrap64 (wrap64 (programSize dev - 1) - reservedWords dev + 1))
            (wrap64 (programSize dev - 1))
            (dev_configSave dev) (dev_progFlashType dev)
            (dev_dataFlashType dev).
Proof.
  unfold _init_device.
  destruct (_ <=? _); repeat split.
Qed.

(** What the last part of the command does, by the outcome of the table
    scan. *)
Lemma detect_finish_spec id configWord s :
  let r := detect_finish id configWord s in
  _state (snd r) = STATE_IDLE /\
  match find (fun dev => deviceId dev =? Z.land id 0xFFE0) devices with
  | Some dev =>
      fst r = Some SP_OK /\
      responses (snd r) = (SP_OK, bytes_of_string (name dev)) :: responses s /\
      prof (snd r) = prof (_init_device dev s)
  | None =>
      fst r = Some SP_ERR_DEVICE_NOT_DETECTED /\
      responses (snd r) = (SP_ERR_DEVICE_NOT_DETECTED, []) :: responses s /\
      prof (snd r) = default_profile io
  end.
Proof.
  cbv zeta. unfold detect_finish, andthen.
  rewrite find_device_find.
  destruct (find _ devices) as [dev|].
  - cbn [fst snd]. split; [apply exit_program_mode_idle|].
    split; [reflexivity|].
    rewrite exit_program_mode_hw.
    destruct (init_device_frame dev
                (sp_tcpserver_response SP_OK (bytes_of_string (name dev))
                   (os_printf "DeviceID: %02X\r\n" [PInt id]
                      (os_printf "OK\r\n" [] s)))) as (_ & R & P).
    destruct (init_device_frame dev s) as (_ & _ & P').
    rewrite P'.
    match goal with
    | |- context [match ?x with _ => _ end] => destruct x
    end; cbn [responses prof os_printf hw]; rewrite ?R, ?P;
      split; reflexivity.
  - cbn [fst snd].
    split.
    + cbn [_state sp_tcpserver_response]. apply exit_program_mode_idle.
    + split; [reflexivity|].
      rewrite exit_program_mode_hw.
      match goal with
      | |- context [match ?x with _ => _ end] => destruct x
      end; split; reflexivity.
Qed.

(** One configuration word of a detection run: name the value and the
    session it leaves. *)
Ltac config_read R v s' V R' :=
  match goal with
  | |- context [_read_config_word ?a ?s1] =>
      destruct (reads_on_read_config_word _ _ s1 a R) as (V & R' & _);
      destruct (_read_config_word a s1) as (v, s');
      cbn [fst snd] in V, R'
  end.

(** The six configuration words of a detection run from [s] are the words
    0 to 5 on the data line; the run then goes on from a session that has
    seen six read commands. *)
Lemma detect_reads req s :
  exists s6,
    reads_on 6 s s6 /\
    pic_command_detect_device req s =
    if (word14 s 4 =? 0) || (word14 s 4 =? 0x3FFF) then
      let word :=
        Z.lor (Z.lor (Z.lor (Z.lor (word14 s 0) (word14 s 1)) (word14 s 2))
                     (word14 s 3)) (word14 s 5) in
      let '(word, s7) := scan_program 16 word 0 s6 in
      if word =? 0 then
        (None, (os_printf "ERROR\r\n" [] ;; _exit_program_mode) s7)
      else detect_finish 0 (word14 s 5) s7
    else detect_finish (word14 s 4) (word14 s 5) s6.
Proof.
  unfold pic_command_detect_device.
  assert (R0 : reads_on 0 s
                 ((_exit_program_mode ;;
                   os_printf "Reading configuration..." []) s)).
  { unfold andthen. apply reads_on_printf, reads_on_exit, reads_on_refl. }
  config_read R0 u0 s1 V0 R1.
  config_read R1 u1 s2 V1 R2.
  config_read R2 u2 s3 V2 R3.
  config_read R3 u3 s4 V3 R4.
  config_read R4 did s5 V4 R5.
  config_read R5 cw s6 V5 R6.
  subst. exists s6. split; [exact R6|reflexivity].
Qed.

(** C4 (as amended).  When the device-id word reads [0x0000] or [0x3FFF]
    and the four user-id words and the config word are not all zero, the
    device id is forced to 0 and looked up in the table like any other id.
    With no entry of pattern 0 the run reports [SP_ERR_DEVICE_NOT_DETECTED]
    with an empty payload, resets the profile to the default and ends idle;
    an entry of pattern 0 would be reported with [SP_OK] and its name, and
    loaded. *)
Theorem detect_legacy_device req s :
  word14 s 4 = 0 \/ word14 s 4 = 0x3FFF ->
  Z.lor (Z.lor (Z.lor (Z.lor (word14 s 0) (word14 s 1)) (word14 s 2))
               (word14 s 3)) (word14 s 5) <> 0 ->
  let r := pic_command_detect_device req s in
  _state (snd r) = STATE_IDLE /\
  match find (fun dev => deviceId dev =? 0) devices with
  | Some dev =>
      fst r = Some SP_OK /\
      responses (snd r) = (SP_OK, bytes_of_string (name dev)) :: responses s /\
      prof (snd r) = prof (_init_device dev s)
  | None =>
      fst r = Some SP_ERR_DEVICE_NOT_DETECTED /\
      responses (snd r) = (SP_ERR_DEVICE_NOT_DETECTED, []) :: responses s /\
      prof (snd r) = default_profile io
  end.
Proof.
  intros Hid Hw. cbv zeta.
  destruct (detect_reads req s) as (s6 & (_ & Rr & _ & _) & E).
  rewrite E.
  replace ((word14 s 4 =? 0) || (word14 s 4 =? 0x3FFF)) with true
    by (destruct Hid as [-> | ->]; reflexivity).
  cbv zeta. rewrite (scan_program_nonzero 16 _ 0 s6 Hw).
  apply Z.eqb_neq in Hw. rewrite Hw.
  pose proof (detect_finish_spec 0 (word14 s 5) s6) as F.
  cbv zeta in F. cbn [Z.land] in F.
  destruct F as (F1 & F2). split; [exact F1|].
  destruct (find _ devices) as [dev|].
  - destruct F2 as (A & B & C). rewrite A, B, C, Rr.
    destruct (init_device_frame dev s6) as (_ & _ & P6).
    destruct (init_device_frame dev s) as (_ & _ & P).
    rewrite P6, P. repeat split.
  - destruct F2 as (A & B & C). rewrite A, B, C, Rr. repeat split.
Qed.

(** C3 (what the code does).  When the device-id word reads [0x0000] or
    [0x3FFF], the user-id and config words are all zero and the sixteen
    scanned words are zero, the run ends idle with the profile untouched and
    no table lookup, but it emits no response at all and leaves through a
    [return] without a status: the not-detected outcome goes to the debug
    console as ["ERROR"] and is never reported to the caller. *)
Theorem detect_nothing_found req s :
  word14 s 4 = 0 \/ word14 s 4 = 0x3FFF ->
  Z.lor (Z.lor (Z.lor (Z.lor (word14 s 0) (word14 s 1)) (word14 s 2))
               (word14 s 3)) (word14 s 5) = 0 ->
  (forall k, (k < 16)%nat -> scan_word s k = 0) ->
  let r := pic_command_detect_device req s in
  fst r = None /\
  responses (snd r) = responses s /\
  _state (snd r) = STATE_IDLE /\
  prof (snd r) = prof s /\
  hd_error (console (snd r)) = Some ("ERROR\r\n"%string, []).
Proof.
  intros Hid Hw Hz. cbv zeta.
  destruct (detect_reads req s) as (s6 & R6 & E).
  rewrite E.
  replace ((word14 s 4 =? 0) || (word14 s 4 =? 0x3FFF)) with true
    by (destruct Hid as [-> | ->]; reflexivity).
  cbv zeta. rewrite Hw.
  destruct (scan_program_zero s 16 0 s6) as (V & _ & Rr & Rp & _);
    [exact R6|reflexivity|intros j Hj; apply Hz; lia|].
  cbn [Z.of_nat] in V, Rr, Rp.
  destruct (scan_program 16 0 0 s6) as (w, s7). cbn [fst snd] in V, Rr, Rp.
  rewrite V. cbn [Z.eqb fst snd]. unfold andthen.
  split; [reflexivity|].
  split; [|split].
  - rewrite exit_program_mode_hw.
    destruct (_state (os_printf _ _ s7)); exact Rr.
  - apply exit_program_mode_idle.
  - rewrite exit_program_mode_hw. split.
    + destruct (_state (os_printf _ _ s7)); exact Rp.
    + destruct (_state (os_printf _ _ s7)); reflexivity.
Qed.

(** ** Streaming read *)

Lemma store_offsets_S count n :
  store_offsets count (S n) = 4 * count :: store_offsets (count + 1) n.
Proof.
  unfold store_offsets. cbn [seq map]. f_equal; [f_equal; lia|].
  rewrite <- seq_shift, map_map. apply map_ext. intros i. lia.
Qed.

Lemma read_word_frame addr s :
  responses (snd (_read_word addr s)) = responses s /\
  stores (snd (_read_word addr s)) = stores s.
Proof.
  destruct (reads_on_read_word 0 s s addr (reads_on_refl s))
    as (_ & _ & R & _ & S).
  split; assumption.
Qed.

Lemma bigendian_serialize_frame buffer off word s :
  List.length buffer = 1024%nat ->
  List.length (fst (bigendian_serialize_uint32 buffer off word s)) =
  1024%nat /\
  responses (snd (bigendian_serialize_uint32 buffer off word s)) =
  responses s /\
  stores (snd (bigendian_serialize_uint32 buffer off word s)) =
  (off, word) :: stores s.
Proof.
  intros L. unfold bigendian_serialize_uint32.
  destruct (in_buffer off) eqn:B; cbn [fst snd responses stores];
    repeat split; try assumption.
  unfold in_buffer, BUFFER_SIZE in B. apply andb_true_iff in B.
  destruct B as [B1 B2]. apply Z.leb_le in B1, B2.
  unfold bigendian_bytes.
  rewrite !length_app, length_firstn, length_skipn, L. cbn [List.length].
  lia.
Qed.

(** The loop over a range that does not reach the largest 32-bit address:
    it ends; "more data" goes out once, when [count] reaches 256, and never
    again; the i-th store is at byte offset [4 * (count + i)]. *)
Lemma read_loop_run end_ n :
  forall fuel start count activity buffer s,
    0 <= start ->
    start + Z.of_nat n = end_ + 1 ->
    end_ + 1 < 2 ^ 32 ->
    (n < fuel)%nat ->
    List.length buffer = 1024%nat ->
    exists s' l,
      read_loop fuel start end_ count activity buffer s = Some s' /\
      responses s' = l ++ responses s /\
      more_chunks l /\
      List.length l =
      (if (count <? 256) && (256 <=? count + Z.of_nat n)
       then 1%nat else 0%nat) /\
      map fst (stores s') =
      rev (store_offsets count n) ++ map fst (stores s).
Proof.
  induction n as [|n IH];
    intros fuel start count activity buffer s H0 Hn He Hf L;
    (destruct fuel as [|fuel]; [lia|]); cbn [read_loop].
  - replace (start <=? end_) with false by (symmetry; apply Z.leb_gt; lia).
    exists s, []. repeat split; try constructor.
    replace ((count <? 256) && (256 <=? count + Z.of_nat 0)) with false
      by (symmetry; apply andb_false_iff;
          destruct (Z.ltb_spec count 256); [right; apply Z.leb_gt; lia
                                           |left; reflexivity]).
    reflexivity.
  - replace (start <=? end_) with true by (symmetry; apply Z.leb_le; lia).
    destruct (read_word_frame start s) as (Rr & Rs).
    destruct (_read_word start s) as (word, s1). cbn [snd] in Rr, Rs.
    destruct (bigendian_serialize_frame buffer (count * 4) word s1 L)
      as (L1 & Br & Bs).
    destruct (bigendian_serialize_uint32 buffer (count * 4) word s1)
      as (buffer1, s2). cbn [fst snd] in L1, Br, Bs.
    replace (wrap32 (start + 1)) with (start + 1)
      by (unfold wrap32; rewrite Z.mod_small; lia).
    set (s3 := if count + 1 =? 256
               then sp_tcpserver_response SP_STATUS_READ_MORE
                      (firstn 1024 buffer1) s2
               else s2).
    set (p := if (count + 1) mod 32 =? 0
              then (xorb activity true,
                    GPIO_SET LED_NUM (xorb activity true) s3)
              else (activity, s3)).
    assert (P : responses (snd p) = responses s3 /\
                stores (snd p) = stores s3).
    { unfold p. destruct (_ =? 0); split; reflexivity. }
    destruct p as (activity1, s4). cbn [snd] in P. destruct P as (Pr & Ps).
    destruct (IH fuel (start + 1) (count + 1) activity1 buffer1 s4)
      as (s' & l & E & R' & M & Len & St); try lia; try assumption.
    exists s'.
    exists (l ++ (if count + 1 =? 256
                  then [(SP_STATUS_READ_MORE, firstn 1024 buffer1)]
                  else [])).
    split; [exact E|]. split; [|split; [|split]].
    + rewrite R', Pr, <- app_assoc. f_equal.
      unfold s3.
      destruct (count + 1 =? 256);
        cbn [responses app sp_tcpserver_response];
        now rewrite ?Br, ?Rr.
    + apply Forall_app. split; [exact M|].
      destruct (count + 1 =? 256); constructor; [|constructor].
      cbn [fst snd]. split; [reflexivity|].
      rewrite length_firstn, L1. reflexivity.
    + rewrite length_app, Len.
      destruct (Z.eqb_spec (count + 1) 256) as [Eq|Ne]; cbn [List.length].
      * replace (count + 1 <? 256) with false
          by (symmetry; apply Z.ltb_ge; lia).
        replace (count <? 256) with true by (symmetry; apply Z.ltb_lt; lia).
        replace (256 <=? count + Z.of_nat (S n)) with true
          by (symmetry; apply Z.leb_le; lia).
        reflexivity.
      * replace (count + 1 <? 256) with (count <? 256)
          by (destruct (Z.ltb_spec count 256);
              [symmetry; apply Z.ltb_lt|symmetry; apply Z.ltb_ge]; lia).
        replace (count + 1 + Z.of_nat n) with (count + Z.of_nat (S n))
          by lia.
        lia.
    + rewrite St, Ps. unfold s3.
      replace (stores (if count + 1 =? 256
                       then sp_tcpserver_response SP_STATUS_READ_MORE
                              (firstn 1024 buffer1) s2
                       else s2)) with (stores s2)
        by (destruct (count + 1 =? 256); reflexivity).
      rewrite Bs, Rs, store_offsets_S. cbn [map fst rev].
      rewrite <- app_assoc. cbn [app].
      replace (count * 4) with (4 * count) by lia. reflexivity.
Qed.

(** C9.  A request whose decoded end address is below its start reads no
    word: the command returns [SP_OK] having emitted the one "done" response
    with an empty payload and nothing else. *)
Theorem read_empty_range req s start end_ :
  bigendian_deserialize_uint32 (body req) = Some start ->
  bigendian_deserialize_uint32 (skipn 8 (body req)) = Some end_ ->
  end_ < start ->
  exists s',
    pic_command_read req s = Some (SP_OK, s') /\
    responses s' = (SP_STATUS_READ_DONE, []) :: responses s /\
    samples s' = samples s /\
    trace s' = trace s /\
    stores s' = stores s /\
    _state s' = _state s /\
    _program_counter s' = _program_counter s.
Proof.
  intros Hs He Hlt.
  exists (sp_tcpserver_response SP_STATUS_READ_DONE [] s).
  unfold pic_command_read. rewrite Hs, He. cbn [read_loop].
  replace (start <=? end_) with false by (symmetry; apply Z.leb_gt; lia).
  repeat split.
Qed.

(** With the largest 32-bit value as end address the loop test never fails:
    no amount of fuel lets the loop end, and the command has no result. *)
Lemma read_loop_top_address fuel :
  forall start count activity buffer s,
    0 <= start < 2 ^ 32 ->
    read_loop fuel start (2 ^ 32 - 1) count activity buffer s = None.
Proof.
  induction fuel as [|fuel IH]; intros start count activity buffer s H;
    cbn [read_loop]; [reflexivity|].
  replace (start <=? 2 ^ 32 - 1) with true by (symmetry; apply Z.leb_le; lia).
  destruct (_read_word start s) as (word, s1).
  destruct (bigendian_serialize_uint32 buffer (count * 4) word s1)
    as (buffer1, s2).
  match goal with
  | |- (let '(_, _) := ?p in _) = None => destruct p as (activity1, s4)
  end.
  apply IH. unfold wrap32. apply Z.mod_pos_bound. lia.
Qed.

(** The command over a range that does not reach the largest 32-bit
    address. *)
Lemma pic_command_read_run req s start end_ :
  bigendian_deserialize_uint32 (body req) = Some start ->
  bigendian_deserialize_uint32 (skipn 8 (body req)) = Some end_ ->
  0 <= start <= end_ ->
  end_ + 1 < 2 ^ 32 ->
  exists s' l,
    pic_command_read req s = Some (SP_OK, s') /\
    responses s' = (SP_STATUS_READ_DONE, []) :: l ++ responses s /\
    more_chunks l /\
    List.length l = (if 256 <=? end_ - start + 1 then 1%nat else 0%nat) /\
    map fst (stores s') =
    rev (store_offsets 0 (Z.to_nat (end_ - start + 1))) ++ map fst (stores s).
Proof.
  intros Hs He Hr Hm.
  unfold pic_command_read. rewrite Hs, He.
  destruct (read_loop_run end_ (Z.to_nat (end_ - start + 1))
              (S (Z.to_nat (end_ - start + 1))) start 0 true
              (repeat 0 (Z.to_nat BUFFER_SIZE)) s)
    as (s' & l & E & R & M & Len & St); try lia.
  { apply repeat_length. }
  rewrite E.
  exists (sp_tcpserver_response SP_STATUS_READ_DONE [] s'), l.
  split; [reflexivity|].
  split; [cbn [responses sp_tcpserver_response]; now rewrite R|].
  split; [exact M|].
  split; [|exact St].
  rewrite Len. cbn [Z.ltb Z.compare andb]. now rewrite Z2Nat.id by lia.
Qed.

(** C1 (what the code does).  A range read of N words emits "more data"
    once if N is at least 256 and not at all otherwise, whatever N / 256 is:
    [count] is never set back after it reaches 256.  One "done" response
    with an empty payload follows. *)
Theorem read_range_responses req s start end_ :
  bigendian_deserialize_uint32 (body req) = Some start ->
  bigendian_deserialize_uint32 (skipn 8 (body req)) = Some end_ ->
  0 <= start <= end_ ->
  end_ + 1 < 2 ^ 32 ->
  exists s' l,
    pic_command_read req s = Some (SP_OK, s') /\
    responses s' = (SP_STATUS_READ_DONE, []) :: l ++ responses s /\
    more_chunks l /\
    List.length l = (if 256 <=? end_ - start + 1 then 1%nat else 0%nat).
Proof.
  intros Hs He Hr Hm.
  destruct (pic_command_read_run req s start end_ Hs He Hr Hm)
    as (s' & l & E & R & M & Len & _).
  exists s', l. repeat split; assumption.
Qed.

(** C2 (what the code does).  The i-th word of a range read is stored at
    byte offset [4 * i] from the start of the 1024-byte block, not at
    [4 * (i mod 256)]: from the 257th word on the stores fall outside the
    block. *)
Theorem read_range_stores req s start end_ :
  bigendian_deserialize_uint32 (body req) = Some start ->
  bigendian_deserialize_uint32 (skipn 8 (body req)) = Some end_ ->
  0 <= start <= end_ ->
  end_ + 1 < 2 ^ 32 ->
  exists s',
    pic_command_read req s = Some (SP_OK, s') /\
    map fst (stores s') =
    rev (map (fun i => 4 * Z.of_nat i)
             (seq 0 (Z.to_nat (end_ - start + 1))))
      ++ map fst (stores s) /\
    (256 < end_ - start + 1 ->
     In 1024 (map fst (stores s')) /\ in_buffer 1024 = false).
Proof.
  intros Hs He Hr Hm.
  destruct (pic_command_read_run req s start end_ Hs He Hr Hm)
    as (s' & l & E & _ & _ & _ & St).
  exists s'. split; [exact E|].
  assert (St' : map fst (stores s') =
                rev (map (fun i => 4 * Z.of_nat i)
                         (seq 0 (Z.to_nat (end_ - start + 1))))
                  ++ map fst (stores s)).
  { rewrite St. unfold store_offsets. do 2 f_equal. }
  split; [exact St'|].
  intros Hbig. split; [|reflexivity].
  rewrite St'. apply in_or_app. left. apply in_rev. rewrite rev_involutive.
  apply in_map_iff. exists 256%nat. split; [reflexivity|].
  apply in_seq. lia.
Qed.

(** * Further properties *)

(** ** Exact traces of the bit codec *)

Lemma emit_hw e s : emit e s = hw (_state s) (_program_counter s) [e] 0 s.
Proof. now destruct s. Qed.

Lemma strobe_hw level s :
  emit (EvDelay (DELAY_THLD1 io))
    (emit (EvSet CLOCK_NUM LOW)
       (emit (EvDelay (DELAY_TSET1 io))
          (emit (EvSet DATA_NUM level) (emit (EvSet CLOCK_NUM HIGH) s)))) =
  hw (_state s) (_program_counter s) (strobe level) 0 s.
Proof. now destruct s. Qed.

Lemma clock_out_exact bits :
  forall v s,
    clock_out bits v s =
    hw (_state s) (_program_counter s) (clock_out_events bits v) 0 s.
Proof.
  induction bits as [|bits IH]; intros v s.
  - simpl. now rewrite hw_id.
  - cbn [clock_out clock_out_events]. unfold andthen.
    rewrite IH.
    unfold GPIO_SET, os_delay_us, LOW, HIGH.
    destruct (Z.land v 1 =? 0); cbn [negb];
      rewrite strobe_hw, hw_state, hw_pc, hw_hw; reflexivity.
Qed.

Lemma send_command_exact c s :
  _send_command c s =
  hw (_state s) (_program_counter s) (clock_out_events 6 c) 0 s.
Proof. apply clock_out_exact. Qed.

Lemma send_simple_command_exact c s :
  _send_simple_command c s =
  hw (_state s) (_program_counter s) (simple_command_events c) 0 s.
Proof.
  unfold _send_simple_command, andthen, os_delay_us.
  rewrite send_command_exact, emit_hw, hw_state, hw_pc, hw_hw. reflexivity.
Qed.

Lemma send_write_command_exact c data s :
  _send_write_command c data s =
  hw (_state s) (_program_counter s) (write_command_events c data) 0 s.
Proof.
  unfold _send_write_command, andthen, os_delay_us.
  rewrite send_command_exact.
  rewrite (emit_hw _ (hw _ _ _ _ _)), hw_state, hw_pc, hw_hw.
  rewrite clock_out_exact, hw_state, hw_pc, hw_hw.
  rewrite emit_hw, hw_state, hw_pc, hw_hw.
  unfold write_command_events. now rewrite <- !app_assoc.
Qed.

Lemma clock_in_exact bits :
  forall data s,
    clock_in bits data s =
    (shift_in bits (samples s) data,
     hw (_state s) (_program_counter s) (clock_in_events bits (samples s))
        bits s).
Proof.
  induction bits as [|bits IH]; intros data s.
  - simpl. now rewrite hw_id.
  - cbn [clock_in shift_in clock_in_events].
    unfold andthen, GPIO_GET, GPIO_SET, os_delay_us, emit.
    cbn [samples wire _state _program_counter prof responses console stores].
    rewrite IH. cbn [samples _state _program_counter]. f_equal.
    unfold hw. cbn [samples wire _state _program_counter prof responses
                    console stores].
    rewrite rev_app_distr. cbn [rev app]. rewrite <- !app_assoc. cbn [app].
    f_equal. lia.
Qed.

Lemma send_read_command_exact c s :
  _send_read_command c s =
  (wire_word (samples s),
   hw (_state s) (_program_counter s) (read_command_events c (samples s))
      16 s).
Proof.
  unfold _send_read_command, andthen, GPIO_SET, GPIO_INPUT, GPIO_OUTPUT,
    os_delay_us.
  rewrite send_command_exact.
  rewrite !(emit_hw _ (hw _ _ _ _ _)), !hw_state, !hw_pc, !hw_hw.
  rewrite clock_in_exact, hw_state, hw_pc, hw_samples, hw_hw.
  cbn [Nat.add].
  rewrite !emit_hw, !hw_state, !hw_pc, !hw_hw.
  unfold wire_word, read_command_events. f_equal.
Qed.

(** ** Exact traces of the state machine *)

Lemma increments_S k :
  increments (S k) =
  simple_command_events (CMD_INCREMENT_ADDRESS io) ++ increments k.
Proof. reflexivity. Qed.

Lemma advance_exact fuel :
  forall addr s,
    (Z.to_nat (addr - _program_counter s) <= fuel)%nat ->
    advance fuel addr s =
    hw (_state s) (Z.max (_program_counter s) addr)
       (increments (Z.to_nat (addr - _program_counter s))) 0 s.
Proof.
  induction fuel as [|fuel IH]; intros addr s Hf.
  - simpl.
    replace (Z.to_nat (addr - _program_counter s)) with 0%nat by lia.
    replace (Z.max (_program_counter s) addr) with (_program_counter s)
      by lia.
    now rewrite hw_id.
  - cbn [advance].
    destruct (_program_counter s <? addr) eqn:E.
    + apply Z.ltb_lt in E.
      rewrite send_simple_command_exact, hw_pc, set_pc_hw.
      rewrite IH by (rewrite hw_pc; lia).
      rewrite hw_state, hw_pc, hw_hw.
      replace (Z.to_nat (addr - _program_counter s))
        with (S (Z.to_nat (addr - (_program_counter s + 1)))) by lia.
      rewrite increments_S. f_equal. lia.
    + apply Z.ltb_ge in E.
      replace (Z.to_nat (addr - _program_counter s)) with 0%nat by lia.
      replace (Z.max (_program_counter s) addr) with (_program_counter s)
        by lia.
      now rewrite hw_id.
Qed.

Lemma advance_to_exact addr s :
  advance_to addr s =
  hw (_state s) (Z.max (_program_counter s) addr)
     (increments (Z.to_nat (addr - _program_counter s))) 0 s.
Proof. apply advance_exact. lia. Qed.

(** The whole of a counter move on the wire: the power events, the
    load-config command where the mode is switched, and one increment
    command per step from the base to the target offset. *)
Lemma set_program_counter_exact addr s :
  0 <= addr ->
  _set_program_counter addr s =
  hw (state_of (region_of (prof s) addr)) (offset_of (prof s) addr)
     (power_events s addr ++ config_switch s addr
        ++ increments (Z.to_nat (offset_of (prof s) addr - move_base s addr)))
     0 s.
Proof.
  intros Ha.
  pose proof (offset_of_nonneg (prof s) addr Ha) as Hoff.
  unfold _set_program_counter, power_events, reset_needed, config_switch,
    move_base, plain_forward, offset_of, region_of in *.
  destruct (in_data (prof s) addr) eqn:D;
    [|destruct (in_config (prof s) addr) eqn:C].
  - destruct (_state s) eqn:St; cbn [prog_state_eqb negb orb andb state_of];
      try destruct (addr - dataStart (prof s) <? _program_counter s) eqn:B;
      try apply Z.ltb_ge in B; try apply Z.ltb_lt in B;
      cbn [negb andb orb];
      unfold andthen; rewrite ?reset_hw, ?St;
      rewrite advance_to_exact, ?hw_hw, ?hw_state, ?hw_pc, ?St;
      rewrite ?app_nil_l, ?Z.sub_0_r, <- ?app_assoc; f_equal; lia.
  - destruct (_state s) eqn:St; cbn [prog_state_eqb negb orb andb state_of];
      try destruct (addr - configStart (prof s) <? _program_counter s) eqn:B;
      try apply Z.ltb_ge in B; try apply Z.ltb_lt in B;
      cbn [negb andb orb];
      unfold andthen;
      rewrite ?reset_hw, ?enter_program_mode_hw, ?St,
        ?send_write_command_exact, ?hw_state, ?hw_pc, ?hw_hw,
        ?set_state_hw, ?set_pc_hw;
      rewrite advance_to_exact, ?hw_hw, ?hw_state, ?hw_pc, ?St;
      rewrite ?app_nil_l, ?Z.sub_0_r, <- ?app_assoc; f_equal; lia.
  - destruct (_state s) eqn:St; cbn [prog_state_eqb negb orb andb state_of];
      try destruct (addr <? _program_counter s) eqn:B;
      try apply Z.ltb_ge in B; try apply Z.ltb_lt in B;
      cbn [negb andb orb];
      unfold andthen; rewrite ?reset_hw, ?St;
      rewrite advance_to_exact, ?hw_hw, ?hw_state, ?hw_pc, ?St;
      rewrite ?app_nil_l, ?Z.sub_0_r, <- ?app_assoc; f_equal; lia.
Qed.

(** C5 (as amended).  A call of [_set_program_counter] from a session that is
    not idle puts exactly this on the wire.  When [reset_needed] holds (the
    session is in config mode and the target is in Program or Data, or the
    session is in the state that serves the target's region and the target
    offset is strictly below the hardware counter): the events of
    [_exit_program_mode], those of [_enter_program_mode], the load-config
    command for a Config target, and then one increment command per step from
    0 to the offset.  Otherwise no power event at all: a Config target
    reached from program mode gets the load-config command and the increments
    from 0, and every other move (forward in the state the session is in,
    Program and Data sharing the program state) gets the increments from the
    current counter and nothing else.  The counter ends at the offset and the
    state is that of the target's region. *)
Theorem set_program_counter_reset_cycle addr s :
  _state s <> STATE_IDLE ->
  0 <= addr ->
  let r := region_of (prof s) addr in
  let off := offset_of (prof s) addr in
  let load_config :=
    match r with
    | Config => write_command_events (CMD_LOAD_CONFIG io) 0
    | Program | Data => []
    end in
  trace (_set_program_counter addr s) =
  trace s
    ++ (if reset_needed s addr then
          power_down_seq ++ power_up_seq ++ load_config
            ++ increments (Z.to_nat off)
        else
          match _state s, r with
          | STATE_PROGRAM, Config => load_config ++ increments (Z.to_nat off)
          | _, _ => increments (Z.to_nat (off - _program_counter s))
          end) /\
  _program_counter (_set_program_counter addr s) = off /\
  _state (_set_program_counter addr s) = state_of r.
Proof.
  intros St Ha. cbv zeta.
  rewrite (set_program_counter_exact addr s Ha), trace_hw, hw_pc, hw_state.
  split; [|split; reflexivity].
  f_equal.
  unfold power_events, config_switch, move_base, plain_forward, reset_needed.
  destruct (_state s) eqn:E; [contradiction| |];
    destruct (region_of (prof s) addr);
    cbn [state_of prog_state_eqb andb negb];
    try destruct (offset_of (prof s) addr <? _program_counter s);
    cbn [negb app]; rewrite ?Z.sub_0_r, <- ?app_assoc; reflexivity.
Qed.

(** C8.  When [_set_program_counter addr] returns, the counter is the
    region-relative offset of [addr] and the session is in program mode for a
    Program or Data target and in config mode for a Config target; and the
    device has been driven there: the call puts on the wire the power events
    the session calls for, the load-config command where the mode is
    switched, and exactly one increment command per step from the base of the
    move (the current counter on a plain forward move, 0 after a power-up or
    a load-config) to the offset. *)
Theorem set_program_counter_lands addr s :
  0 <= addr ->
  match region_of (prof s) addr with
  | Data =>
      _program_counter (_set_program_counter addr s) =
      addr - dataStart (prof s) /\
      _state (_set_program_counter addr s) = STATE_PROGRAM
  | Config =>
      _program_counter (_set_program_counter addr s) =
      addr - configStart (prof s) /\
      _state (_set_program_counter addr s) = STATE_CONFIG
  | Program =>
      _program_counter (_set_program_counter addr s) = addr /\
      _state (_set_program_counter addr s) = STATE_PROGRAM
  end /\
  trace (_set_program_counter addr s) =
  trace s
    ++ power_events s addr
    ++ config_switch s addr
    ++ increments (Z.to_nat (offset_of (prof s) addr
                             - (if plain_forward s addr
                                then _program_counter s else 0))).
Proof.
  intros Ha.
  rewrite (set_program_counter_exact addr s Ha), trace_hw, hw_pc, hw_state.
  split; [|reflexivity].
  unfold offset_of.
  destruct (region_of (prof s) addr); split; reflexivity.
Qed.

Lemma read_word_exact addr s :
  0 <= addr ->
  _read_word addr s =
  ((if in_data (prof s) addr then word8 s 0 else word14 s 0),
   hw (state_of (region_of (prof s) addr)) (offset_of (prof s) addr)
      (power_events s addr ++ config_switch s addr
         ++ increments (Z.to_nat (offset_of (prof s) addr - move_base s addr))
         ++ read_command_events
              (if in_data (prof s) addr then CMD_READ_DATA_MEMORY io
               else CMD_READ_PROGRAM_MEMORY io) (samples s))
      16 s).
Proof.
  intros Ha. unfold _read_word.
  rewrite set_program_counter_prof, (set_program_counter_exact addr s Ha).
  destruct (in_data (prof s) addr);
    rewrite send_read_command_exact, hw_samples, hw_state, hw_pc, hw_hw;
    cbn [Nat.add]; rewrite <- !app_assoc; reflexivity.
Qed.

Lemma read_config_word_exact addr s :
  0 <= addr ->
  _read_config_word addr s =
  (word14 s 0,
   hw STATE_CONFIG addr
      (config_entry addr s
         ++ read_command_events (CMD_READ_PROGRAM_MEMORY io) (samples s))
      16 s).
Proof.
  intros Ha. unfold _read_config_word, config_entry.
  destruct (_state s) eqn:St;
    try destruct (addr <? _program_counter s) eqn:B;
    try apply Z.ltb_ge in B; try apply Z.ltb_lt in B;
    unfold andthen;
    rewrite ?reset_hw, ?enter_program_mode_hw, ?St,
      ?send_write_command_exact, ?hw_state, ?hw_pc, ?hw_hw,
      ?set_state_hw, ?set_pc_hw;
    rewrite advance_to_exact, ?hw_hw, ?hw_state, ?hw_pc, ?St;
    rewrite send_read_command_exact, ?hw_samples, ?hw_state, ?hw_pc, ?hw_hw,
      ?St;
    cbn [Nat.add]; rewrite ?Z.sub_0_r, <- ?app_assoc;
    (f_equal; f_equal; lia).
Qed.

(** ** Measures of event lists *)

Lemma data_out_app a b : data_out (a ++ b) = data_out a ++ data_out b.
Proof. apply flat_map_app. Qed.

Lemma led_out_app a b : led_out (a ++ b) = led_out a ++ led_out b.
Proof. apply flat_map_app. Qed.

Lemma clock_pulses_app a b :
  clock_pulses (a ++ b) = (clock_pulses a + clock_pulses b)%nat.
Proof. unfold clock_pulses. now rewrite filter_app, length_app. Qed.

Lemma bit0_land v : negb (Z.land v 1 =? 0) = Z.testbit v 0.
Proof.
  change 1 with (Z.ones 1). rewrite Z.land_ones by lia.
  change (2 ^ 1) with 2. rewrite Zmod_odd, Z.bit0_odd.
  now destruct (Z.odd v).
Qed.

Lemma bits_of_S n v :
  bits_of (S n) v = Z.testbit v 0 :: bits_of n (Z.shiftr v 1).
Proof.
  unfold bits_of. cbn [seq map]. f_equal.
  rewrite <- seq_shift, map_map. apply map_ext. intros j.
  rewrite Z.shiftr_spec by lia. f_equal. lia.
Qed.

Lemma data_out_clock_out bits :
  forall v, data_out (clock_out_events bits v) = bits_of bits v.
Proof.
  induction bits as [|bits IH]; intros v; [reflexivity|].
  cbn [clock_out_events]. rewrite data_out_app, IH, bits_of_S, bit0_land.
  reflexivity.
Qed.

Lemma clock_pulses_clock_out bits :
  forall v, clock_pulses (clock_out_events bits v) = bits.
Proof.
  induction bits as [|bits IH]; intros v; [reflexivity|].
  cbn [clock_out_events]. rewrite clock_pulses_app, IH. reflexivity.
Qed.

Lemma led_out_clock_out bits : forall v, led_out (clock_out_events bits v) = [].
Proof.
  induction bits as [|bits IH]; intros v; [reflexivity|].
  cbn [clock_out_events]. rewrite led_out_app, IH. reflexivity.
Qed.

Lemma clock_pulses_clock_in bits :
  forall n, clock_pulses (clock_in_events bits n) = bits.
Proof.
  induction bits as [|bits IH]; intros n; [reflexivity|].
  cbn [clock_in_events]. rewrite clock_pulses_app, IH. reflexivity.
Qed.

Lemma data_out_clock_in bits : forall n, data_out (clock_in_events bits n) = [].
Proof.
  induction bits as [|bits IH]; intros n; [reflexivity|].
  cbn [clock_in_events]. rewrite data_out_app, IH. reflexivity.
Qed.

Lemma led_out_clock_in bits : forall n, led_out (clock_in_events bits n) = [].
Proof.
  induction bits as [|bits IH]; intros n; [reflexivity|].
  cbn [clock_in_events]. rewrite led_out_app, IH. reflexivity.
Qed.

Lemma clock_pulses_increments k : clock_pulses (increments k) = (6 * k)%nat.
Proof.
  induction k as [|k IH]; [reflexivity|].
  rewrite increments_S, clock_pulses_app, IH.
  unfold simple_command_events.
  rewrite clock_pulses_app, clock_pulses_clock_out. cbn. lia.
Qed.

Lemma led_out_increments k : led_out (increments k) = [].
Proof.
  induction k as [|k IH]; [reflexivity|].
  rewrite increments_S, led_out_app, IH.
  unfold simple_command_events.
  rewrite led_out_app, led_out_clock_out. reflexivity.
Qed.

(** ** The bit codec *)

Lemma testbit_above_16 data i :
  0 <= data < 2 ^ 16 -> 16 <= i -> Z.testbit data i = false.
Proof.
  intros Hd Hi.
  destruct (Z.eq_dec data 0) as [->|NZ]; [apply Z.bits_0|].
  apply Z.bits_above_log2; [lia|].
  assert (Z.log2 data < 16) by (apply Z.log2_lt_pow2; lia).
  lia.
Qed.

(** The loop of the read command, bit by bit: after [bits] samples the old
    bits have moved down by [bits] places and the samples sit above them, the
    first one lowest. *)
Lemma shift_in_testbit bits :
  forall n data j,
    (bits <= 16)%nat ->
    0 <= data < 2 ^ 16 ->
    Z.testbit (shift_in bits n data) (Z.of_nat j) =
    if (j + bits <? 16)%nat then Z.testbit data (Z.of_nat (j + bits))
    else if (j <? 16)%nat then din (n + (j + bits - 16))
    else false.
Proof.
  induction bits as [|bits IH]; intros n data j Hb Hd.
  - cbn [shift_in]. rewrite Nat.add_0_r.
    destruct (Nat.ltb_spec j 16); [reflexivity|].
    apply testbit_above_16; [exact Hd|lia].
  - cbn [shift_in].
    set (data' := if din n then Z.lor (Z.shiftr data 1) 32768
                  else Z.shiftr data 1).
    assert (Hd' : 0 <= data' < 2 ^ 16).
    { pose proof (shift_in_range 1 n data Hd) as R. exact R. }
    rewrite (IH (S n) data' j) by (lia || exact Hd').
    assert (T : forall i, (i < 16)%nat ->
                Z.testbit data' (Z.of_nat i) =
                if (i =? 15)%nat then din n
                else Z.testbit data (Z.of_nat (S i))).
    { intros i Hi. unfold data'.
      assert (Sh : Z.testbit (Z.shiftr data 1) (Z.of_nat i) =
                   Z.testbit data (Z.of_nat (S i))).
      { rewrite Z.shiftr_spec by lia. f_equal. lia. }
      assert (Top : Z.testbit data 16 = false).
      { apply testbit_above_16; [exact Hd|lia]. }
      destruct (Nat.eqb_spec i 15) as [->|Ne].
      - destruct (din n).
        + rewrite Z.lor_spec. change 32768 with (2 ^ 15).
          rewrite Z.pow2_bits_true by lia. apply orb_true_r.
        + rewrite Sh. exact Top.
      - destruct (din n); [|exact Sh].
        rewrite Z.lor_spec, Sh. change 32768 with (2 ^ 15).
        rewrite Z.pow2_bits_false by lia. apply orb_false_r. }
    destruct (Nat.ltb_spec (j + S bits) 16) as [L1|L1].
    + replace (j + bits <? 16)%nat with true
        by (symmetry; apply Nat.ltb_lt; lia).
      rewrite T by lia.
      replace (j + bits =? 15)%nat with false
        by (symmetry; apply Nat.eqb_neq; lia).
      f_equal. lia.
    + destruct (Nat.ltb_spec (j + bits) 16) as [L2|L2].
      * rewrite T by lia.
        replace (j + bits =? 15)%nat with true
          by (symmetry; apply Nat.eqb_eq; lia).
        replace (j <? 16)%nat with true by (symmetry; apply Nat.ltb_lt; lia).
        f_equal. lia.
      * destruct (Nat.ltb_spec j 16); [f_equal; lia|reflexivity].
Qed.

Lemma wire_word_testbit n j :
  Z.testbit (wire_word n) (Z.of_nat j) =
  if (j <? 16)%nat then din (n + j) else false.
Proof.
  unfold wire_word. rewrite shift_in_testbit by lia.
  replace (j + 16 <? 16)%nat with false by (symmetry; apply Nat.ltb_ge; lia).
  destruct (j <? 16)%nat; [f_equal; lia|reflexivity].
Qed.

(** X1.  The read command rebuilds a word that arrives least significant bit
    first: bit [j] of the result is the [j]-th sample taken, for the sixteen
    samples of the command, and the command takes exactly sixteen samples. *)
Theorem send_read_command_bits c s j :
  (j < 16)%nat ->
  Z.testbit (fst (_send_read_command c s)) (Z.of_nat j) = din (samples s + j) /\
  samples (snd (_send_read_command c s)) = (16 + samples s)%nat.
Proof.
  intros Hj. rewrite send_read_command_exact. cbn [fst snd].
  rewrite wire_word_testbit, hw_samples.
  replace (j <? 16)%nat with true by (symmetry; apply Nat.ltb_lt; lia).
  split; reflexivity.
Qed.

(** X2.  [_send_command] frames an opcode as six clock pulses with the bits
    0 to 5 of the opcode on the data line, least significant first; it takes
    no sample and leaves state and counter alone. *)
Theorem send_command_bits c s :
  data_out (trace (_send_command c s)) = data_out (trace s) ++ bits_of 6 c /\
  clock_pulses (trace (_send_command c s)) = (clock_pulses (trace s) + 6)%nat /\
  samples (_send_command c s) = samples s /\
  _state (_send_command c s) = _state s /\
  _program_counter (_send_command c s) = _program_counter s.
Proof.
  rewrite send_command_exact, trace_hw, data_out_app, clock_pulses_app,
    data_out_clock_out, clock_pulses_clock_out.
  repeat split.
Qed.

(** X3.  [_send_write_command] sends the six opcode bits and then the bits
    0 to 15 of the payload, each least significant first, in 22 clock
    pulses; payload bits above bit 15 are never sent. *)
Theorem send_write_command_bits c data s :
  data_out (trace (_send_write_command c data s)) =
  data_out (trace s) ++ bits_of 6 c ++ bits_of 16 data /\
  clock_pulses (trace (_send_write_command c data s)) =
  (clock_pulses (trace s) + 22)%nat /\
  _send_write_command c (data mod 2 ^ 16) s = _send_write_command c data s.
Proof.
  rewrite !send_write_command_exact, trace_hw. unfold write_command_events.
  rewrite !data_out_app, !clock_pulses_app, !data_out_clock_out,
    !clock_pulses_clock_out.
  split; [|split].
  - cbn [data_out flat_map app]. now rewrite app_nil_r.
  - cbn. lia.
  - do 3 f_equal.
    assert (E : forall n v w,
               bits_of n v = bits_of n w ->
               clock_out_events n v = clock_out_events n w).
    { induction n as [|n IH]; intros v w H; [reflexivity|].
      rewrite !bits_of_S in H.
      pose proof (f_equal (@hd bool false) H) as H0.
      pose proof (f_equal (@tl bool) H) as H1.
      cbn [hd tl] in H0, H1.
      cbn [clock_out_events]. rewrite !bit0_land, H0. f_equal.
      apply IH, H1. }
    f_equal. apply E. unfold bits_of. apply map_ext_in. intros j Hj.
    apply in_seq in Hj. apply Z.mod_pow2_bits_low. lia.
Qed.

(** X4.  Codec round trip: when the data line replays, sample by sample,
    the sixteen levels a write command put on the data line after its six
    opcode bits, the read command returns the payload of that write command
    reduced to 16 bits. *)
Theorem write_then_read_round_trip c data s0 c' s :
  (forall j, (j < 16)%nat ->
             din (samples s + j) =
             nth (List.length (data_out (trace s0)) + 6 + j)
                 (data_out (trace (_send_write_command c data s0))) false) ->
  fst (_send_read_command c' s) = data mod 2 ^ 16.
Proof.
  intros H. rewrite send_read_command_exact. cbn [fst].
  assert (W : data_out (trace (_send_write_command c data s0)) =
              (data_out (trace s0) ++ bits_of 6 c) ++ bits_of 16 data).
  { rewrite send_write_command_exact, trace_hw. unfold write_command_events.
    rewrite !data_out_app, !data_out_clock_out.
    cbn [data_out flat_map app]. now rewrite app_nil_r, app_assoc. }
  apply Z.bits_inj'. intros i Hi.
  rewrite <- (Z2Nat.id i Hi), wire_word_testbit.
  destruct (Nat.ltb_spec (Z.to_nat i) 16) as [L|L].
  - rewrite Z.mod_pow2_bits_low by lia.
    rewrite (H _ L), W.
    rewrite app_nth2
      by (rewrite length_app; unfold bits_of;
          rewrite length_map, length_seq; lia).
    replace (List.length (data_out (trace s0)) + 6 + Z.to_nat i
             - List.length (data_out (trace s0) ++ bits_of 6 c))%nat
      with (Z.to_nat i)
      by (rewrite length_app; unfold bits_of;
          rewrite length_map, length_seq; lia).
    unfold bits_of.
    rewrite (nth_indep _ false (Z.testbit data (Z.of_nat 0)))
      by (rewrite length_map, length_seq; exact L).
    rewrite (map_nth (fun j => Z.testbit data (Z.of_nat j))).
    rewrite seq_nth by exact L. reflexivity.
  - symmetry. apply Z.mod_pow2_bits_high. lia.
Qed.

(** ** Quiet event lists and the power line *)

Lemma quiet_clock_out bits :
  forall v, forallb quiet (clock_out_events bits v) = true.
Proof.
  induction bits as [|bits IH]; intros v; [reflexivity|].
  cbn [clock_out_events]. rewrite forallb_app, IH. reflexivity.
Qed.

Lemma quiet_clock_in bits :
  forall n, forallb quiet (clock_in_events bits n) = true.
Proof.
  induction bits as [|bits IH]; intros n; [reflexivity|].
  cbn [clock_in_events]. rewrite forallb_app, IH. reflexivity.
Qed.

Lemma quiet_write_command c data :
  forallb quiet (write_command_events c data) = true.
Proof.
  unfold write_command_events.
  rewrite !forallb_app, !quiet_clock_out. reflexivity.
Qed.

Lemma quiet_read_command c n :
  forallb quiet (read_command_events c n) = true.
Proof.
  unfold read_command_events.
  rewrite !forallb_app, quiet_clock_out, quiet_clock_in. reflexivity.
Qed.

Lemma quiet_increments k : forallb quiet (increments k) = true.
Proof.
  induction k as [|k IH]; [reflexivity|].
  rewrite increments_S, forallb_app, IH. unfold simple_command_events.
  rewrite forallb_app, quiet_clock_out. reflexivity.
Qed.

Lemma quiet_config_switch s addr :
  forallb quiet (config_switch s addr) = true.
Proof.
  unfold config_switch.
  destruct (region_of (prof s) addr); try reflexivity.
  destruct (plain_forward s addr); [reflexivity|apply quiet_write_command].
Qed.

Lemma vdd_level_acc evs :
  forall acc,
    fold_left (fun acc e =>
                 match e with EvSet VDD_NUM l => Some l | _ => acc end)
              evs acc =
    match vdd_level evs with
    | Some l => Some l
    | None => acc
    end.
Proof.
  unfold vdd_level.
  induction evs as [|e evs IH]; intros acc; [reflexivity|].
  cbn [fold_left]. rewrite IH. symmetry. rewrite IH.
  destruct (fold_left _ evs None); [reflexivity|].
  destruct e as [[] ?|?|?|? ?|?]; reflexivity.
Qed.

Lemma vdd_level_app a b :
  vdd_level (a ++ b) =
  match vdd_level b with
  | Some l => Some l
  | None => vdd_level a
  end.
Proof.
  unfold vdd_level at 1. rewrite fold_left_app. apply vdd_level_acc.
Qed.

Lemma vdd_level_quiet evs : forallb quiet evs = true -> vdd_level evs = None.
Proof.
  induction evs as [|e evs IH]; [reflexivity|].
  cbn [forallb]. intros H. apply andb_true_iff in H as [He Hevs].
  change (e :: evs) with ([e] ++ evs).
  rewrite vdd_level_app, (IH Hevs).
  destruct e as [[] ?|?|?|? ?|?]; try reflexivity; discriminate.
Qed.

(** The power line after a run that is some power events and then quiet
    events. *)
Lemma vdd_level_run tr pe q :
  forallb quiet q = true ->
  vdd_level (tr ++ pe ++ q) =
  match vdd_level pe with
  | Some l => Some l
  | None => vdd_level tr
  end.
Proof.
  intros Q.
  now rewrite app_assoc, vdd_level_app, (vdd_level_quiet q Q), vdd_level_app.
Qed.

Lemma power_tracked_run st pc pe q k s :
  forallb quiet q = true ->
  match vdd_level pe with
  | Some l => l
  | None => match vdd_level (trace s) with Some l => l | None => false end
  end = negb (prog_state_eqb st STATE_IDLE) ->
  power_tracked (hw st pc (pe ++ q) k s).
Proof.
  intros Q H. unfold power_tracked.
  rewrite trace_hw, hw_state, (vdd_level_run _ _ _ Q), <- H.
  destruct (vdd_level pe); reflexivity.
Qed.

(** ** Programming mode *)

(** X5.  Entering and leaving programming mode are idempotent, entering
    never leaves the session idle, leaving always does, and leaving followed
    by entering ends in program mode at counter 0 from every state. *)
Theorem program_mode_idempotent s :
  _enter_program_mode (_enter_program_mode s) = _enter_program_mode s /\
  _exit_program_mode (_exit_program_mode s) = _exit_program_mode s /\
  _state (_enter_program_mode s) <> STATE_IDLE /\
  _state (_exit_program_mode s) = STATE_IDLE /\
  _state (_enter_program_mode (_exit_program_mode s)) = STATE_PROGRAM /\
  _program_counter (_enter_program_mode (_exit_program_mode s)) = 0.
Proof.
  rewrite reset_hw.
  rewrite (enter_program_mode_hw (_enter_program_mode s)),
    (exit_program_mode_hw (_exit_program_mode s)).
  rewrite !enter_program_mode_hw, !exit_program_mode_hw.
  destruct (_state s) eqn:St; cbn [hw _state]; rewrite ?St;
    repeat split; discriminate.
Qed.

(** X6.  [_set_erase_program_counter] resets the device whatever the state:
    a power-down if the session was not idle, a power-up, then one
    load-config command whose payload bits are fourteen ones and two zeros;
    it ends in config mode at counter 0. *)
Theorem set_erase_program_counter_trace s :
  trace (_set_erase_program_counter s) =
  trace s
    ++ (match _state s with STATE_IDLE => [] | _ => power_down_seq end)
    ++ power_up_seq
    ++ write_command_events (CMD_LOAD_CONFIG io) 0x3FFF /\
  bits_of 16 0x3FFF = repeat true 14 ++ repeat false 2 /\
  _state (_set_erase_program_counter s) = STATE_CONFIG /\
  _program_counter (_set_erase_program_counter s) = 0.
Proof.
  unfold _set_erase_program_counter, andthen.
  rewrite reset_hw, send_write_command_exact, hw_state, hw_pc, hw_hw,
    set_state_hw, trace_hw.
  repeat split.
  destruct (_state s); now rewrite <- ?app_assoc.
Qed.

(** X7.  The session state keeps track of the power line: if the device is
    powered exactly when the session is not idle, this is still so after
    entering or leaving programming mode, a counter move, a word read by flat
    or by relative address, and the erase set-up. *)
Theorem power_tracked_kept addr s :
  power_tracked s ->
  0 <= addr ->
  power_tracked (_enter_program_mode s) /\
  power_tracked (_exit_program_mode s) /\
  power_tracked (_set_program_counter addr s) /\
  power_tracked (snd (_read_word addr s)) /\
  power_tracked (snd (_read_config_word addr s)) /\
  power_tracked (_set_erase_program_counter s).
Proof.
  intros P Ha.
  assert (P' := P). unfold power_tracked in P'.
  split; [|split; [|split; [|split; [|split]]]].
  - rewrite enter_program_mode_hw.
    destruct (_state s) eqn:St; try exact P.
    rewrite <- (app_nil_r power_up_seq).
    apply power_tracked_run; reflexivity.
  - rewrite exit_program_mode_hw.
    destruct (_state s) eqn:St; try exact P;
      rewrite <- (app_nil_r power_down_seq);
      apply power_tracked_run; reflexivity.
  - rewrite (set_program_counter_exact addr s Ha).
    apply power_tracked_run.
    + rewrite forallb_app, quiet_config_switch, quiet_increments.
      reflexivity.
    + unfold power_events.
      destruct (_state s) eqn:St;
        try destruct (reset_needed s addr);
        destruct (region_of (prof s) addr); cbn [state_of];
        try reflexivity; rewrite P'; reflexivity.
  - rewrite (read_word_exact addr s Ha). cbn [snd].
    apply power_tracked_run.
    + rewrite !forallb_app, quiet_config_switch, quiet_increments,
        quiet_read_command. reflexivity.
    + unfold power_events.
      destruct (_state s) eqn:St;
        try destruct (reset_needed s addr);
        destruct (region_of (prof s) addr); cbn [state_of];
        try reflexivity; rewrite P'; reflexivity.
  - rewrite (read_config_word_exact addr s Ha). cbn [snd].
    unfold config_entry.
    destruct (_state s) eqn:St;
      try destruct (addr <? _program_counter s);
      rewrite <- ?app_assoc;
      try (rewrite (app_assoc power_down_seq power_up_seq));
      try (apply power_tracked_run;
           [rewrite !forallb_app, ?quiet_write_command, ?quiet_increments,
              ?quiet_read_command; reflexivity
           |reflexivity]).
    all: match goal with
         | |- power_tracked (hw ?st ?pc ?evs ?k ?s0) =>
             change (power_tracked (hw st pc ([] ++ evs) k s0))
         end;
      (apply power_tracked_run;
       [rewrite !forallb_app, ?quiet_write_command, ?quiet_increments,
          ?quiet_read_command; reflexivity|]);
      cbn [vdd_level fold_left]; rewrite P'; reflexivity.
  - unfold _set_erase_program_counter, andthen.
    rewrite reset_hw, send_write_command_exact, hw_state, hw_pc, hw_hw,
      set_state_hw.
    apply power_tracked_run; [apply quiet_write_command|].
    destruct (_state s); reflexivity.
Qed.

(** ** Counter moves and word reads on the wire *)

Lemma clock_pulses_write_command c data :
  clock_pulses (write_command_events c data) = 22%nat.
Proof.
  unfold write_command_events.
  rewrite !clock_pulses_app, !clock_pulses_clock_out. reflexivity.
Qed.

Lemma clock_pulses_power_events s addr :
  clock_pulses (power_events s addr) = 0%nat.
Proof.
  unfold power_events.
  destruct (_state s); try destruct (reset_needed s addr); reflexivity.
Qed.

Lemma word14_range s k : 0 <= word14 s k <= 0x3FFF.
Proof.
  unfold word14.
  set (x := Z.shiftr (wire_word (16 * k + samples s)) 1).
  assert (E : Z.land x 0x3FFF = x mod 2 ^ 14)
    by (change 0x3FFF with (Z.ones 14); apply Z.land_ones; lia).
  rewrite E.
  pose proof (Z.mod_pos_bound x (2 ^ 14) eq_refl) as B.
  change (2 ^ 14) with 16384 in *. lia.
Qed.

Lemma word8_range s k : 0 <= word8 s k <= 0xFF.
Proof.
  unfold word8.
  set (x := Z.shiftr (wire_word (16 * k + samples s)) 1).
  assert (E : Z.land x 0x00FF = x mod 2 ^ 8)
    by (change 0x00FF with (Z.ones 8); apply Z.land_ones; lia).
  rewrite E.
  pose proof (Z.mod_pos_bound x (2 ^ 8) eq_refl) as B.
  change (2 ^ 8) with 256 in *. lia.
Qed.


(** X9.  The price of a counter move in clock pulses.  A plain forward move
    (the session already in the state that serves the target, the counter not
    past it) costs six pulses per step from the current counter; every other
    move starts again from offset 0, after 22 more pulses for the load-config
    command when the target is in Config.  A move takes no sample, emits no
    response and leaves the profile alone. *)
Theorem set_program_counter_cost addr s :
  0 <= addr ->
  clock_pulses (trace (_set_program_counter addr s)) =
  (clock_pulses (trace s)
   + (match region_of (prof s) addr with
      | Config => if plain_forward s addr then 0 else 22
      | Program | Data => 0
      end)
   + 6 * Z.to_nat (offset_of (prof s) addr
                   - (if plain_forward s addr then _program_counter s
                      else 0)))%nat /\
  samples (_set_program_counter addr s) = samples s /\
  responses (_set_program_counter addr s) = responses s /\
  prof (_set_program_counter addr s) = prof s.
Proof.
  intros Ha. rewrite (set_program_counter_exact addr s Ha), trace_hw.
  rewrite !clock_pulses_app, clock_pulses_power_events,
    clock_pulses_increments.
  repeat split.
  unfold config_switch, move_base.
  destruct (region_of (prof s) addr); try (cbn; lia).
  destruct (plain_forward s addr);
    [cbn; lia|rewrite clock_pulses_write_command; lia].
Qed.

(** X10.  A word read returns a value of the width of its memory: at most
    [0xFF] inside the Data bounds, at most [0x3FFF] elsewhere.  It takes
    exactly sixteen samples, emits no response, stores nothing and leaves the
    profile alone. *)
Theorem read_word_range addr s :
  0 <= fst (_read_word addr s) <=
  (if in_data (prof s) addr then 0xFF else 0x3FFF) /\
  samples (snd (_read_word addr s)) = (16 + samples s)%nat /\
  responses (snd (_read_word addr s)) = responses s /\
  stores (snd (_read_word addr s)) = stores s /\
  prof (snd (_read_word addr s)) = prof s.
Proof.
  destruct (read_word_hw addr s) as (pc & rest & _ & H & _).
  rewrite H. cbn [fst snd].
  destruct (in_data (prof s) addr); repeat split;
    apply word8_range || apply word14_range.
Qed.

Lemma state_of_eqb r : prog_state_eqb (state_of r) (state_of r) = true.
Proof. now destruct r. Qed.

(** X11.  Sequential reads are cheap.  After a word read at [a], reading
    [a] again sends the read command alone, and reading [a + 1] in the same
    region sends one increment command and the read command: no power event,
    no load-config. *)
Theorem read_word_next a s :
  0 <= a ->
  region_of (prof s) a = region_of (prof s) (a + 1) ->
  let s1 := snd (_read_word a s) in
  let opcode x := if in_data (prof s) x then CMD_READ_DATA_MEMORY io
                  else CMD_READ_PROGRAM_MEMORY io in
  trace (snd (_read_word a s1)) =
  trace s1 ++ read_command_events (opcode a) (samples s1) /\
  trace (snd (_read_word (a + 1) s1)) =
  trace s1
    ++ simple_command_events (CMD_INCREMENT_ADDRESS io)
    ++ read_command_events (opcode (a + 1)) (samples s1).
Proof.
  intros Ha Hr. cbv zeta.
  assert (Ha1 : 0 <= a + 1) by lia.
  set (s1 := snd (_read_word a s)).
  assert (E1 : s1 = hw (state_of (region_of (prof s) a))
                       (offset_of (prof s) a)
                       (power_events s a ++ config_switch s a
                          ++ increments
                               (Z.to_nat (offset_of (prof s) a
                                          - move_base s a))
                          ++ read_command_events
                               (if in_data (prof s) a
                                then CMD_READ_DATA_MEMORY io
                                else CMD_READ_PROGRAM_MEMORY io)
                               (samples s)) 16 s).
  { unfold s1. now rewrite (read_word_exact a s Ha). }
  assert (Pf : prof s1 = prof s) by now rewrite E1.
  assert (St : _state s1 = state_of (region_of (prof s) a)) by now rewrite E1.
  assert (Pc : _program_counter s1 = offset_of (prof s) a) by now rewrite E1.
  assert (Off : offset_of (prof s) (a + 1) = offset_of (prof s) a + 1).
  { unfold offset_of. rewrite <- Hr.
    destruct (region_of (prof s) a); lia. }
  assert (Stay : forall x,
             region_of (prof s) x = region_of (prof s) a ->
             offset_of (prof s) a <= offset_of (prof s) x ->
             power_events s1 x = [] /\ config_switch s1 x = [] /\
             move_base s1 x = offset_of (prof s) a).
  { intros x Rx Ox.
    assert (PF : plain_forward s1 x = true).
    { unfold plain_forward. rewrite Pf, St, Pc, Rx, state_of_eqb.
      replace (offset_of (prof s) x <? offset_of (prof s) a) with false
        by (symmetry; apply Z.ltb_ge; lia).
      reflexivity. }
    unfold power_events, reset_needed, config_switch, move_base.
    rewrite PF, Pf, St, Pc, Rx.
    replace (offset_of (prof s) x <? offset_of (prof s) a) with false
      by (symmetry; apply Z.ltb_ge; lia).
    destruct (region_of (prof s) a); repeat split. }
  split.
  - rewrite (read_word_exact a s1 Ha). cbn [snd]. rewrite trace_hw, Pf.
    destruct (Stay a eq_refl ltac:(lia)) as (-> & -> & ->).
    rewrite Z.sub_diag. reflexivity.
  - rewrite (read_word_exact (a + 1) s1 Ha1). cbn [snd].
    rewrite trace_hw, Pf.
    destruct (Stay (a + 1) (eq_sym Hr) ltac:(lia)) as (-> & -> & ->).
    rewrite Off. replace (offset_of (prof s) a + 1 - offset_of (prof s) a)
      with 1 by lia.
    change (Z.to_nat 1) with 1%nat. rewrite increments_S.
    change (increments 0) with (@nil hw_event).
    now rewrite app_nil_r.
Qed.

(** ** Detection *)

Lemma init_device_samples dev s : samples (_init_device dev s) = samples s.
Proof. unfold _init_device. now destruct (_ <=? _). Qed.

Lemma exit_program_mode_samples s : samples (_exit_program_mode s) = samples s.
Proof. rewrite exit_program_mode_hw. now destruct (_state s). Qed.

Lemma exit_program_mode_responses s :
  responses (_exit_program_mode s) = responses s.
Proof. rewrite exit_program_mode_hw. now destruct (_state s). Qed.

Lemma detect_finish_samples id configWord s :
  samples (snd (detect_finish id configWord s)) = samples s.
Proof.
  unfold detect_finish, andthen. rewrite find_device_find.
  destruct (find _ devices) as [dev|]; cbn [fst snd].
  - rewrite exit_program_mode_samples. cbn [samples os_printf].
    now rewrite init_device_samples.
  - cbn [samples sp_tcpserver_response].
    now rewrite exit_program_mode_samples.
Qed.

Lemma scan_program_responses fuel :
  forall word addr s,
    responses (snd (scan_program fuel word addr s)) = responses s.
Proof.
  induction fuel as [|fuel IH]; intros word addr s; [reflexivity|].
  cbn [scan_program].
  destruct ((word =? 0) && (addr <? 16)); [|reflexivity].
  destruct (read_word_frame addr s) as (R & _).
  destruct (_read_word addr s) as (w, s1). cbn [snd] in R.
  now rewrite IH.
Qed.

(** The program scan up to its first word that is not zero. *)
Lemma scan_program_first s k fuel :
  forall i s1,
    reads_on (6 + i) s s1 ->
    (i <= k)%nat ->
    (k < i + fuel)%nat ->
    (k < 16)%nat ->
    (forall j, (j < k)%nat -> scan_word s j = 0) ->
    scan_word s k <> 0 ->
    fst (scan_program fuel 0 (Z.of_nat i) s1) = scan_word s k /\
    reads_on (7 + k) s (snd (scan_program fuel 0 (Z.of_nat i) s1)).
Proof.
  induction fuel as [|fuel IH]; intros i s1 R Hi Hf Hk Hz Hnz; [lia|].
  cbn [scan_program].
  replace (Z.of_nat i <? 16) with true by (symmetry; apply Z.ltb_lt; lia).
  cbn [Z.eqb andb].
  destruct (reads_on_read_word (6 + i) s s1 (Z.of_nat i) R) as (V & R').
  destruct (_read_word (Z.of_nat i) s1) as (w, s2). cbn [fst snd] in V, R'.
  change (if in_data (prof s) (Z.of_nat i)
          then word8 s (6 + i) else word14 s (6 + i))
    with (scan_word s i) in V.
  cbn [Z.lor].
  destruct (Nat.eq_dec i k) as [->|Ne].
  - rewrite scan_program_nonzero by now rewrite V.
    cbn [fst snd]. split; [exact V|exact R'].
  - rewrite V, (Hz i) by lia.
    replace (Z.of_nat i + 1) with (Z.of_nat (S i)) by lia.
    apply IH; try lia; try assumption.
Qed.

(** X12.  Detection of a device with a readable id (neither [0x0000] nor
    [0x3FFF]): exactly six words are read and no program word is scanned; the
    id is matched with its low five bits cleared, the first entry of the
    table with that pattern wins.  A match is reported with [SP_OK] and the
    entry's name and loads the entry's profile; no match is reported with
    [SP_ERR_DEVICE_NOT_DETECTED] and loads the default profile.  The session
    ends idle either way. *)
Theorem detect_known_id req s :
  word14 s 4 <> 0 ->
  word14 s 4 <> 0x3FFF ->
  let r := pic_command_detect_device req s in
  _state (snd r) = STATE_IDLE /\
  samples (snd r) = (96 + samples s)%nat /\
  match find (fun dev => deviceId dev =? Z.land (word14 s 4) 0xFFE0) devices
  with
  | Some dev =>
      fst r = Some SP_OK /\
      responses (snd r) = (SP_OK, bytes_of_string (name dev)) :: responses s /\
      prof (snd r) = prof (_init_device dev s)
  | None =>
      fst r = Some SP_ERR_DEVICE_NOT_DETECTED /\
      responses (snd r) = (SP_ERR_DEVICE_NOT_DETECTED, []) :: responses s /\
      prof (snd r) = default_profile io
  end.
Proof.
  intros H0 H1. cbv zeta.
  destruct (detect_reads req s) as (s6 & (Rs & Rr & _ & _) & E).
  rewrite E.
  apply Z.eqb_neq in H0, H1. rewrite H0, H1. cbn [orb].
  pose proof (detect_finish_spec (word14 s 4) (word14 s 5) s6) as F.
  cbv zeta in F. destruct F as (F1 & F2).
  split; [exact F1|]. split; [now rewrite detect_finish_samples, Rs|].
  destruct (find _ devices) as [dev|].
  - destruct F2 as (A & B & C). rewrite A, B, C, Rr.
    destruct (init_device_frame dev s6) as (_ & _ & P6).
    destruct (init_device_frame dev s) as (_ & _ & P).
    rewrite P6, P. repeat split.
  - destruct F2 as (A & B & C). rewrite A, B, C, Rr. repeat split.
Qed.

(** X13.  Every detection run ends with the session idle, and the status
    the command returns is the status of the one response it emitted; only
    the run that leaves without a status emits no response. *)
Theorem detect_outcome req s :
  let r := pic_command_detect_device req s in
  _state (snd r) = STATE_IDLE /\
  match fst r with
  | Some status =>
      exists payload, responses (snd r) = (status, payload) :: responses s
  | None => responses (snd r) = responses s
  end.
Proof.
  cbv zeta.
  destruct (detect_reads req s) as (s6 & (_ & Rr & _ & _) & E).
  rewrite E.
  assert (F : forall id cw s7,
             responses s7 = responses s ->
             _state (snd (detect_finish id cw s7)) = STATE_IDLE /\
             match fst (detect_finish id cw s7) with
             | Some status =>
                 exists payload,
                 responses (snd (detect_finish id cw s7)) =
                 (status, payload) :: responses s
             | None => responses (snd (detect_finish id cw s7)) = responses s
             end).
  { intros id cw s7 R7.
    pose proof (detect_finish_spec id cw s7) as F. cbv zeta in F.
    destruct F as (F1 & F2). split; [exact F1|].
    destruct (find _ devices) as [dev|]; destruct F2 as (A & B & _);
      rewrite A, B, R7; eexists; reflexivity. }
  destruct ((word14 s 4 =? 0) || (word14 s 4 =? 0x3FFF)).
  - cbv zeta.
    pose proof (scan_program_responses 16
                  (Z.lor (Z.lor (Z.lor (Z.lor (word14 s 0) (word14 s 1))
                                       (word14 s 2)) (word14 s 3))
                         (word14 s 5)) 0 s6) as R7.
    destruct (scan_program 16 _ 0 s6) as (w, s7). cbn [snd] in R7.
    destruct (w =? 0).
    + cbn [fst snd]. unfold andthen. split.
      * apply exit_program_mode_idle.
      * rewrite exit_program_mode_responses. cbn [responses os_printf].
        now rewrite R7.
    + apply F. now rewrite R7.
  - apply F. exact Rr.
Qed.

(** X14.  The program scan stops at the first word that is not zero.  When
    the id word reads [0x0000] or [0x3FFF], the other configuration words
    are zero and the scanned words 0 to [k - 1] are zero but word [k] is not,
    the run reads [7 + k] words in all, treats the device as one with id 0
    and reports the outcome of the table lookup. *)
Theorem detect_scan_stops req s k :
  word14 s 4 = 0 \/ word14 s 4 = 0x3FFF ->
  Z.lor (Z.lor (Z.lor (Z.lor (word14 s 0) (word14 s 1)) (word14 s 2))
               (word14 s 3)) (word14 s 5) = 0 ->
  (k < 16)%nat ->
  (forall j, (j < k)%nat -> scan_word s j = 0) ->
  scan_word s k <> 0 ->
  let r := pic_command_detect_device req s in
  samples (snd r) = (16 * (7 + k) + samples s)%nat /\
  _state (snd r) = STATE_IDLE /\
  match find (fun dev => deviceId dev =? 0) devices with
  | Some dev =>
      fst r = Some SP_OK /\
      responses (snd r) = (SP_OK, bytes_of_string (name dev)) :: responses s
  | None =>
      fst r = Some SP_ERR_DEVICE_NOT_DETECTED /\
      responses (snd r) = (SP_ERR_DEVICE_NOT_DETECTED, []) :: responses s /\
      prof (snd r) = default_profile io
  end.
Proof.
  intros Hid Hw Hk Hz Hnz. cbv zeta.
  destruct (detect_reads req s) as (s6 & R6 & E).
  rewrite E.
  replace ((word14 s 4 =? 0) || (word14 s 4 =? 0x3FFF)) with true
    by (destruct Hid as [-> | ->]; reflexivity).
  cbv zeta. rewrite Hw.
  destruct (scan_program_first s k 16 0 s6) as (V & Rs & Rr & _ & _);
    try assumption; try lia.
  cbn [Z.of_nat] in V, Rs, Rr.
  destruct (scan_program 16 0 0 s6) as (w, s7). cbn [fst snd] in V, Rs, Rr.
  rewrite V. apply Z.eqb_neq in Hnz. rewrite Hnz.
  pose proof (detect_finish_spec 0 (word14 s 5) s7) as F.
  cbv zeta in F. cbn [Z.land] in F. destruct F as (F1 & F2).
  split; [now rewrite detect_finish_samples, Rs|].
  split; [exact F1|].
  destruct (find _ devices) as [dev|].
  - destruct F2 as (A & B & _). rewrite A, B, Rr. split; reflexivity.
  - destruct F2 as (A & B & C). rewrite A, B, C, Rr. repeat split.
Qed.

(** ** Streaming read: what is sent and what it costs *)

Lemma encoded_S s start k :
  encoded s start (S k) =
  encoded s start k ++ bigendian_bytes (read_value s start k).
Proof.
  unfold encoded. rewrite seq_S, map_app, flat_map_app. cbn [map flat_map].
  now rewrite app_nil_r.
Qed.

Lemma length_encoded s start k :
  List.length (encoded s start k) = (4 * k)%nat.
Proof.
  induction k as [|k IH]; [reflexivity|].
  rewrite encoded_S, length_app, IH. cbn [List.length bigendian_bytes]. lia.
Qed.

Lemma led_out_power_events s addr : led_out (power_events s addr) = [].
Proof.
  unfold power_events.
  destruct (_state s); try destruct (reset_needed s addr); reflexivity.
Qed.

Lemma led_out_write_command c data :
  led_out (write_command_events c data) = [].
Proof.
  unfold write_command_events.
  rewrite !led_out_app, !led_out_clock_out. reflexivity.
Qed.

Lemma led_out_config_switch s addr : led_out (config_switch s addr) = [].
Proof.
  unfold config_switch.
  destruct (region_of (prof s) addr); try reflexivity.
  destruct (plain_forward s addr); [reflexivity|apply led_out_write_command].
Qed.

Lemma led_out_read_command c n : led_out (read_command_events c n) = [].
Proof.
  unfold read_command_events.
  rewrite !led_out_app, led_out_clock_out, led_out_clock_in. reflexivity.
Qed.

(** One word read as the [i]-th read of a run from [s]. *)
Lemma sampled_read_word i s s1 addr :
  sampled i s s1 ->
  0 <= addr ->
  fst (_read_word addr s1) =
  (if in_data (prof s) addr then word8 s i else word14 s i) /\
  sampled (S i) s (snd (_read_word addr s1)) /\
  responses (snd (_read_word addr s1)) = responses s1 /\
  led_out (trace (snd (_read_word addr s1))) = led_out (trace s1) /\
  _state (snd (_read_word addr s1)) = state_of (region_of (prof s) addr) /\
  _program_counter (snd (_read_word addr s1)) = offset_of (prof s) addr.
Proof.
  intros (A & P) Ha. rewrite (read_word_exact addr s1 Ha). cbn [fst snd].
  unfold sampled.
  rewrite trace_hw, hw_samples, hw_prof, hw_responses, hw_state, hw_pc, P.
  rewrite !led_out_app, led_out_power_events, led_out_config_switch,
    led_out_increments, led_out_read_command, !app_nil_r.
  rewrite (word14_shift i s s1 0 A), (word8_shift i s s1 0 A).
  replace (i + 0)%nat with i by lia.
  rewrite A. repeat split. lia.
Qed.

(** One turn of the loop of [pic_command_read]. *)
Lemma read_loop_step fuel start end_ count activity buffer s :
  start <= end_ ->
  read_loop (S fuel) start end_ count activity buffer s =
  let w := fst (_read_word start s) in
  let sr := snd (_read_word start s) in
  let b' := fst (bigendian_serialize_uint32 buffer (count * 4) w sr) in
  let s2 := snd (bigendian_serialize_uint32 buffer (count * 4) w sr) in
  let s3 := if count + 1 =? 256
            then sp_tcpserver_response SP_STATUS_READ_MORE (firstn 1024 b') s2
            else s2 in
  read_loop fuel (wrap32 (start + 1)) end_ (count + 1)
    (if (count + 1) mod 32 =? 0 then xorb activity true else activity) b'
    (if (count + 1) mod 32 =? 0
     then GPIO_SET LED_NUM (xorb activity true) s3 else s3).
Proof.
  intros H. cbn [read_loop].
  replace (start <=? end_) with true by (symmetry; apply Z.leb_le; lia).
  destruct (_read_word start s) as (w, sr). cbn [fst snd].
  destruct (bigendian_serialize_uint32 buffer (count * 4) w sr) as (b', s2).
  cbn [fst snd]. destruct ((count + 1) mod 32 =? 0); reflexivity.
Qed.

(** What one turn leaves behind, after the word read itself. *)
Lemma read_tail buffer count w activity sr :
  let b' := fst (bigendian_serialize_uint32 buffer (count * 4) w sr) in
  let s2 := snd (bigendian_serialize_uint32 buffer (count * 4) w sr) in
  let s3 := if count + 1 =? 256
            then sp_tcpserver_response SP_STATUS_READ_MORE (firstn 1024 b') s2
            else s2 in
  let s4 := if (count + 1) mod 32 =? 0
            then GPIO_SET LED_NUM (xorb activity true) s3 else s3 in
  samples s4 = samples sr /\
  prof s4 = prof sr /\
  _state s4 = _state sr /\
  _program_counter s4 = _program_counter sr /\
  responses s4 =
  (if count + 1 =? 256 then [(SP_STATUS_READ_MORE, firstn 1024 b')] else [])
    ++ responses sr /\
  led_out (trace s4) =
  led_out (trace sr)
    ++ (if (count + 1) mod 32 =? 0 then [xorb activity true] else []).
Proof.
  cbv zeta. unfold bigendian_serialize_uint32, trace.
  destruct (in_buffer (count * 4)); cbn [fst snd];
    destruct (count + 1 =? 256); destruct ((count + 1) mod 32 =? 0);
    cbn [samples prof _state _program_counter responses wire
         sp_tcpserver_response GPIO_SET emit rev app];
    rewrite ?led_out_app, ?app_nil_r; repeat split.
Qed.

Lemma serialize_buffer buffer i w s :
  List.length buffer = 1024%nat ->
  let b' := fst (bigendian_serialize_uint32 buffer (Z.of_nat i * 4) w s) in
  List.length b' = 1024%nat /\
  ((i < 256)%nat ->
   firstn (4 * S i) b' = firstn (4 * i) buffer ++ bigendian_bytes w).
Proof.
  intros L. cbv zeta. unfold bigendian_serialize_uint32.
  destruct (in_buffer (Z.of_nat i * 4)) eqn:B; cbn [fst].
  - unfold in_buffer, BUFFER_SIZE in B. apply andb_true_iff in B.
    destruct B as [_ B]. apply Z.leb_le in B.
    replace (Z.to_nat (Z.of_nat i * 4)) with (4 * i)%nat by lia.
    split.
    + rewrite !length_app, length_firstn, length_skipn, L.
      cbn [List.length bigendian_bytes]. lia.
    + intros _. rewrite app_assoc.
      rewrite firstn_app.
      rewrite firstn_all2
        by (rewrite length_app, length_firstn, L;
            cbn [List.length bigendian_bytes]; lia).
      replace (4 * S i - List.length (firstn (4 * i) buffer
                                        ++ bigendian_bytes w))%nat
        with 0%nat
        by (rewrite length_app, length_firstn, L;
            cbn [List.length bigendian_bytes]; lia).
      cbn [firstn]. now rewrite app_nil_r.
  - split; [exact L|]. intros Hi.
    unfold in_buffer, BUFFER_SIZE in B. apply andb_false_iff in B.
    destruct B as [B|B]; apply Z.leb_gt in B; lia.
Qed.

Lemma div32_succ i :
  (S i / 32)%nat =
  if Z.of_nat (S i) mod 32 =? 0 then S (i / 32) else (i / 32)%nat.
Proof.
  pose proof (Nat.div_mod_eq i 32) as D.
  pose proof (Nat.mod_upper_bound i 32 ltac:(lia)) as M.
  destruct (Z.eqb_spec (Z.of_nat (S i) mod 32) 0) as [E|E].
  - assert (Ei : (i mod 32 = 31)%nat).
    { replace (Z.of_nat (S i)) with
        (Z.of_nat (i mod 32) + 1 + Z.of_nat (i / 32) * 32) in E by lia.
      rewrite Z.mod_add in E by lia.
      destruct (Nat.eq_dec (i mod 32) 31) as [Y|N]; [exact Y|].
      rewrite Z.mod_small in E by lia. lia. }
    symmetry. apply (Nat.div_unique (S i) 32 (S (i / 32)) 0); lia.
  - assert (Ei : (i mod 32 <> 31)%nat).
    { intros Y. apply E.
      replace (Z.of_nat (S i)) with (0 + (Z.of_nat (i / 32) + 1) * 32) by lia.
      now rewrite Z.mod_add by lia. }
    symmetry. apply (Nat.div_unique (S i) 32 (i / 32) (S (i mod 32))); lia.
Qed.

(** The loop from its [i]-th turn on, [n] turns before the end of a range
    that does not reach the largest 32-bit address. *)
Lemma read_loop_account s start end_ n :
  forall fuel i activity buffer s1,
    0 <= start ->
    start + Z.of_nat i + Z.of_nat n = end_ + 1 ->
    end_ + 1 < 2 ^ 32 ->
    (n < fuel)%nat ->
    List.length buffer = 1024%nat ->
    sampled i s s1 ->
    ((i <= 256)%nat -> firstn (4 * i) buffer = encoded s start i) ->
    exists s',
      read_loop fuel (start + Z.of_nat i) end_ (Z.of_nat i) activity buffer s1
      = Some s' /\
      sampled (i + n) s s' /\
      responses s' =
      (if (i <? 256)%nat && (256 <=? i + n)%nat
       then [(SP_STATUS_READ_MORE, encoded s start 256)] else [])
        ++ responses s1 /\
      led_out (trace s') =
      led_out (trace s1)
        ++ alternate (negb activity) ((i + n) / 32 - i / 32) /\
      ((0 < n)%nat ->
       _state s' = state_of (region_of (prof s) end_) /\
       _program_counter s' = offset_of (prof s) end_).
Proof.
  induction n as [|n IH];
    intros fuel i activity buffer s1 H0 Hn He Hf L Sa Hb;
    (destruct fuel as [|fuel]; [lia|]).
  - cbn [read_loop].
    replace (start + Z.of_nat i <=? end_) with false
      by (symmetry; apply Z.leb_gt; lia).
    exists s1. rewrite Nat.add_0_r, Nat.sub_diag.
    replace ((i <? 256)%nat && (256 <=? i)%nat) with false
      by (destruct (Nat.ltb_spec i 256); destruct (Nat.leb_spec 256 i);
          try reflexivity; lia).
    cbn [alternate app]. rewrite app_nil_r.
    repeat split; try apply Sa; lia.
  - rewrite read_loop_step by lia. cbv zeta.
    destruct (sampled_read_word i s s1 (start + Z.of_nat i) Sa ltac:(lia))
      as (V & Sa' & Rr & Lr & Str & Pcr).
    change (if in_data (prof s) (start + Z.of_nat i)
            then word8 s i else word14 s i)
      with (read_value s start i) in V.
    set (w := fst (_read_word (start + Z.of_nat i) s1)) in *.
    set (sr := snd (_read_word (start + Z.of_nat i) s1)) in *.
    destruct (serialize_buffer buffer i w sr L) as (L' & Hb').
    destruct (read_tail buffer (Z.of_nat i) w activity sr)
      as (Ts & Tp & Tst & Tpc & Tr & Tl).
    set (b' := fst (bigendian_serialize_uint32 buffer (Z.of_nat i * 4) w sr))
      in *.
    replace (wrap32 (start + Z.of_nat i + 1)) with (start + Z.of_nat (S i))
      by (unfold wrap32; rewrite Z.mod_small; lia).
    replace (Z.of_nat i + 1) with (Z.of_nat (S i)) in * by lia.
    set (s4 := if Z.of_nat (S i) mod 32 =? 0 then _ else _) in *.
    set (act' := if Z.of_nat (S i) mod 32 =? 0
                 then xorb activity true else activity).
    assert (Sa4 : sampled (S i) s s4).
    { destruct Sa' as (A & P). split; [now rewrite Ts|now rewrite Tp]. }
    assert (Hb4 : (S i <= 256)%nat -> firstn (4 * S i) b' = encoded s start (S i)).
    { intros Hi. rewrite Hb' by lia. rewrite Hb by lia.
      now rewrite encoded_S, V. }
    destruct (IH fuel (S i) act' b' s4) as (s' & E & Sa'' & R' & Ld & Fin);
      try lia; try assumption.
    exists s'. split; [exact E|].
    split; [replace (i + S n)%nat with (S i + n)%nat by lia; exact Sa''|].
    split; [|split].
    + rewrite R', Tr, Rr, app_assoc. f_equal.
      destruct (Z.eqb_spec (Z.of_nat (S i)) 256) as [Eq|Ne].
      * assert (Ei : i = 255%nat) by lia. subst i.
        rewrite <- (Hb4 ltac:(lia)).
        cbn [Nat.ltb Nat.leb Nat.add andb app]. reflexivity.
      * rewrite app_nil_r.
        replace (i + S n)%nat with (S i + n)%nat by lia.
        destruct (Nat.ltb_spec (S i) 256); destruct (Nat.ltb_spec i 256);
          try reflexivity; try lia.
    + rewrite Ld, Tl, Lr, <- app_assoc. f_equal.
      replace (i + S n)%nat with (S i + n)%nat by lia.
      pose proof (div32_succ i) as D.
      assert (Mono : (S i / 32 <= (S i + n) / 32)%nat)
        by (apply Nat.Div0.div_le_mono; lia).
      unfold act'.
      destruct (Z.of_nat (S i) mod 32 =? 0).
      * replace ((S i + n) / 32 - i / 32)%nat
          with (S ((S i + n) / 32 - S i / 32)) by lia.
        cbn [alternate app]. now destruct activity.
      * rewrite D. reflexivity.
    + intros _. destruct n as [|n].
      * destruct fuel as [|fuel]; [lia|]. cbn [read_loop] in E.
        replace (start + Z.of_nat (S i) <=? end_) with false in E
          by (symmetry; apply Z.leb_gt; lia).
        injection E as <-.
        replace end_ with (start + Z.of_nat i) by lia.
        rewrite Tst, Tpc. split; assumption.
      * apply Fin. lia.
Qed.

(** The command over a range that does not reach the largest 32-bit
    address, with everything it leaves behind. *)
Lemma pic_command_read_account req s start end_ :
  bigendian_deserialize_uint32 (body req) = Some start ->
  bigendian_deserialize_uint32 (skipn 8 (body req)) = Some end_ ->
  0 <= start <= end_ ->
  end_ + 1 < 2 ^ 32 ->
  exists s',
    pic_command_read req s = Some (SP_OK, s') /\
    responses s' =
    (SP_STATUS_READ_DONE, [])
      :: (if 256 <=? end_ - start + 1
          then [(SP_STATUS_READ_MORE, encoded s start 256)] else [])
      ++ responses s /\
    sampled (Z.to_nat (end_ - start + 1)) s s' /\
    led_out (trace s') =
    led_out (trace s) ++ alternate false (Z.to_nat (end_ - start + 1) / 32) /\
    _state s' = state_of (region_of (prof s) end_) /\
    _program_counter s' = offset_of (prof s) end_.
Proof.
  intros Hs He Hr Hm.
  unfold pic_command_read. rewrite Hs, He.
  destruct (read_loop_account s start end_ (Z.to_nat (end_ - start + 1))
              (S (Z.to_nat (end_ - start + 1))) 0 true
              (repeat 0 (Z.to_nat BUFFER_SIZE)) s)
    as (s' & E & Sa & R & Ld & Fin); try lia.
  { apply repeat_length. }
  { split; reflexivity. }
  { intros _. reflexivity. }
  cbn [Z.of_nat] in E. rewrite Z.add_0_r in E. rewrite E.
  exists (sp_tcpserver_response SP_STATUS_READ_DONE [] s').
  destruct Fin as (Fs & Fp); [lia|].
  split; [reflexivity|].
  split; [|split; [exact Sa|split; [|split; assumption]]].
  - cbn [responses sp_tcpserver_response]. rewrite R. do 2 f_equal.
    change (0 <? 256)%nat with true. rewrite Nat.add_0_l. cbn [andb].
    destruct (Z.leb_spec 256 (end_ - start + 1));
      destruct (Nat.leb_spec 256 (Z.to_nat (end_ - start + 1)));
      try reflexivity; lia.
  - unfold trace in *. cbn [wire sp_tcpserver_response]. rewrite Ld.
    rewrite Nat.add_0_l. change (0 / 32)%nat with 0%nat.
    rewrite Nat.sub_0_r. reflexivity.
Qed.

(** X15.  What a range read sends.  A range of at least 256 words sends one
    "more data" response whose 1024 bytes are the first 256 words read, each
    as four big-endian bytes in reading order, and then "done"; a shorter
    range sends "done" alone: its words are read and never sent. *)
Theorem read_range_payload req s start end_ :
  bigendian_deserialize_uint32 (body req) = Some start ->
  bigendian_deserialize_uint32 (skipn 8 (body req)) = Some end_ ->
  0 <= start <= end_ ->
  end_ + 1 < 2 ^ 32 ->
  exists s',
    pic_command_read req s = Some (SP_OK, s') /\
    responses s' =
    (SP_STATUS_READ_DONE, [])
      :: (if 256 <=? end_ - start + 1
          then [(SP_STATUS_READ_MORE,
                 flat_map bigendian_bytes
                          (map (read_value s start) (seq 0 256)))]
          else [])
      ++ responses s.
Proof.
  intros Hs He Hr Hm.
  destruct (pic_command_read_account req s start end_ Hs He Hr Hm)
    as (s' & E & R & _).
  exists s'. split; assumption.
Qed.

(** X16.  What a range read of N words costs and where it ends: exactly N
    read commands (16 N samples), the activity indicator switched once per
    32 words, first off and then alternating, the session in the state of
    the last address with the counter at its offset, and the profile
    unchanged. *)
Theorem read_range_account req s start end_ :
  bigendian_deserialize_uint32 (body req) = Some start ->
  bigendian_deserialize_uint32 (skipn 8 (body req)) = Some end_ ->
  0 <= start <= end_ ->
  end_ + 1 < 2 ^ 32 ->
  exists s',
    pic_command_read req s = Some (SP_OK, s') /\
    samples s' = (16 * Z.to_nat (end_ - start + 1) + samples s)%nat /\
    led_out (trace s') =
    led_out (trace s) ++ alternate false (Z.to_nat (end_ - start + 1) / 32) /\
    _state s' = state_of (region_of (prof s) end_) /\
    _program_counter s' = offset_of (prof s) end_ /\
    prof s' = prof s.
Proof.
  intros Hs He Hr Hm.
  destruct (pic_command_read_account req s start end_ Hs He Hr Hm)
    as (s' & E & _ & (Sa & Sp) & Ld & St & Pc).
  exists s'. repeat split; assumption.
Qed.

(** X17.  A range that ends at the largest 32-bit address is never
    finished: the loop test [start <= end] cannot fail for a 32-bit [start],
    so the loop does not end whatever the fuel, and the command has no
    result. *)
Theorem read_top_address_never_ends req s start :
  bigendian_deserialize_uint32 (body req) = Some start ->
  bigendian_deserialize_uint32 (skipn 8 (body req)) = Some (2 ^ 32 - 1) ->
  0 <= start < 2 ^ 32 ->
  (forall fuel count activity buffer,
      read_loop fuel start (2 ^ 32 - 1) count activity buffer s = None) /\
  pic_command_read req s = None.
Proof.
  intros Hs He Hr. split.
  - intros fuel count activity buffer. now apply read_loop_top_address.
  - unfold pic_command_read. rewrite Hs, He.
    now rewrite read_loop_top_address.
Qed.

(** ** Loading a profile *)

(** X18.  A table entry whose three memories are laid out in order without
    overlap loads a profile that serves every address of each memory in its
    own region at its own offset, and whose reserved range is the last
    [reservedWords] words of program memory. *)
Theorem init_device_regions dev s a :
  0 < programSize dev <= dev_configStart dev ->
  0 < configSize dev ->
  dev_configStart dev + configSize dev <= dev_dataStart dev ->
  0 < dataSize dev ->
  dev_dataStart dev + dataSize dev <= 2 ^ 64 ->
  0 <= reservedWords dev <= programSize dev ->
  let p := prof (_init_device dev s) in
  (0 <= a < programSize dev ->
   region_of p a = Program /\ offset_of p a = a) /\
  (dev_configStart dev <= a < dev_configStart dev + configSize dev ->
   region_of p a = Config /\ offset_of p a = a - dev_configStart dev) /\
  (dev_dataStart dev <= a < dev_dataStart dev + dataSize dev ->
   region_of p a = Data /\ offset_of p a = a - dev_dataStart dev) /\
  reservedStart p = programSize dev - reservedWords dev /\
  reservedEnd p = programSize dev - 1.
Proof.
  intros Hp Hc Hcd Hd Hd64 Hr. cbv zeta.
  destruct (init_device_frame dev s) as (_ & _ & P). rewrite P.
  unfold offset_of, region_of, in_data, in_config, wrap64.
  cbn [programEnd configStart configEnd dataStart dataEnd reservedStart
       reservedEnd].
  rewrite !(Z.mod_small (programSize dev - 1)) by lia.
  rewrite (Z.mod_small (dev_configStart dev + configSize dev - 1)) by lia.
  rewrite (Z.mod_small (dev_dataStart dev + dataSize dev - 1)) by lia.
  rewrite (Z.mod_small (programSize dev - 1 - reservedWords dev + 1)) by lia.
  repeat split; try lia.
  - replace (dev_dataStart dev <=? a) with false
      by (symmetry; apply Z.leb_gt; lia).
    replace (dev_configStart dev <=? a) with false
      by (symmetry; apply Z.leb_gt; lia).
    reflexivity.
  - replace (dev_dataStart dev <=? a) with false
      by (symmetry; apply Z.leb_gt; lia).
    replace (dev_configStart dev <=? a) with false
      by (symmetry; apply Z.leb_gt; lia).
    reflexivity.
  - replace (dev_dataStart dev <=? a) with false
      by (symmetry; apply Z.leb_gt; lia).
    replace (dev_configStart dev <=? a) with true
      by (symmetry; apply Z.leb_le; lia).
    replace (a <=? dev_configStart dev + configSize dev - 1) with true
      by (symmetry; apply Z.leb_le; lia).
    reflexivity.
  - replace (dev_dataStart dev <=? a) with false
      by (symmetry; apply Z.leb_gt; lia).
    replace (dev_configStart dev <=? a) with true
      by (symmetry; apply Z.leb_le; lia).
    replace (a <=? dev_configStart dev + configSize dev - 1) with true
      by (symmetry; apply Z.leb_le; lia).
    reflexivity.
  - replace (dev_dataStart dev <=? a) with true
      by (symmetry; apply Z.leb_le; lia).
    replace (a <=? dev_dataStart dev + dataSize dev - 1) with true
      by (symmetry; apply Z.leb_le; lia).
    reflexivity.
  - replace (dev_dataStart dev <=? a) with true
      by (symmetry; apply Z.leb_le; lia).
    replace (a <=? dev_dataStart dev + dataSize dev - 1) with true
      by (symmetry; apply Z.leb_le; lia).
    reflexivity.
Qed.

(** ** Stripping the frame bits *)

(** X20.  A word read strips the start and the stop bit: bit [j] of the
    value is the sample after the [j]-th one, for the fourteen bits of a
    program or config word and the eight bits of a data word; the first
    sample and the samples after the value never show. *)
Theorem read_word_bits addr s j :
  (j < (if in_data (prof s) addr then 8 else 14))%nat ->
  Z.testbit (fst (_read_word addr s)) (Z.of_nat j) = din (samples s + S j).
Proof.
  intros Hj.
  destruct (read_word_hw addr s) as (pc & rest & _ & H & _).
  rewrite H. cbn [fst].
  assert (B : Z.testbit (Z.shiftr (wire_word (samples s)) 1) (Z.of_nat j) =
              din (samples s + S j)).
  { rewrite Z.shiftr_spec by lia.
    replace (Z.of_nat j + 1) with (Z.of_nat (S j)) by lia.
    rewrite wire_word_testbit.
    replace (S j <? 16)%nat with true
      by (symmetry; apply Nat.ltb_lt; destruct (in_data (prof s) addr); lia).
    reflexivity. }
  destruct (in_data (prof s) addr).
  - unfold word8. cbn [Nat.mul Nat.add].
    change 0x00FF with (Z.ones 8).
    rewrite Z.land_ones, Z.mod_pow2_bits_low by lia. exact B.
  - unfold word14. cbn [Nat.mul Nat.add].
    change 0x3FFF with (Z.ones 14).
    rewrite Z.land_ones, Z.mod_pow2_bits_low by lia. exact B.
Qed.

End Firmware.

(** * The flash partition table *)



(** * The properties at concrete inputs *)

(** Reading the 512 words 0 to 511: one "more data" response where
    512 / 256 is 2. *)
Lemma read_range_responses_512 :
  exists s' l,
    pic_command_read icsp_io line_low (read_request 0 511) (boot icsp_io) =
    Some (SP_OK, s') /\
    responses s' = (SP_STATUS_READ_DONE, []) :: l ++ [] /\
    more_chunks l /\
    List.length l = 1%nat.
Proof.
  apply (read_range_responses icsp_io line_low (read_request 0 511)
           (boot icsp_io) 0 511); [reflexivity|reflexivity|lia|lia].
Defined.

(** Reading the 257 words 0 to 256: the last store is at byte 1024. *)
Lemma read_range_stores_257 :
  exists s',
    pic_command_read icsp_io line_low (read_request 0 256) (boot icsp_io) =
    Some (SP_OK, s') /\
    map fst (stores s') =
    rev (map (fun i => 4 * Z.of_nat i) (seq 0 257)) ++ [] /\
    (256 < 256 - 0 + 1 ->
     In 1024 (map fst (stores s')) /\ in_buffer 1024 = false).
Proof.
  apply (read_range_stores icsp_io line_low (read_request 0 256)
           (boot icsp_io) 0 256); [reflexivity|reflexivity|lia|lia].
Defined.



(** An empty socket: every word reads zero, nothing is reported. *)
Lemma detect_nothing_found_empty_socket :
  let r := pic_command_detect_device icsp_io line_low two_devices
             empty_request (boot icsp_io) in
  fst r = None /\
  responses (snd r) = [] /\
  _state (snd r) = STATE_IDLE /\
  prof (snd r) = default_profile icsp_io /\
  hd_error (console (snd r)) = Some ("ERROR\r\n"%string, []).
Proof.
  apply (detect_nothing_found icsp_io line_low two_devices empty_request
           (boot icsp_io)).
  - left. reflexivity.
  - reflexivity.
  - intros k Hk.
    do 16 (destruct k as [|k]; [reflexivity|]). lia.
Defined.

(** A device whose configuration words all read [0x3FFF]: the id word is
    [0x3FFF], the other words are not zero, and with no entry of pattern 0
    in the table the run reports not-detected, not success; with such an
    entry the table scan finds it. *)
Lemma legacy_id_is_looked_up :
  let s := boot icsp_io in
  let r := pic_command_detect_device icsp_io line_high two_devices
             empty_request s in
  let r' := pic_command_detect_device icsp_io line_high
              (pic16f84 :: two_devices) empty_request s in
  word14 line_high s 4 = 0x3FFF /\
  Z.lor (Z.lor (Z.lor (Z.lor (word14 line_high s 0) (word14 line_high s 1))
                      (word14 line_high s 2))
               (word14 line_high s 3)) (word14 line_high s 5) <> 0 /\
  fst r <> Some SP_OK /\
  responses (snd r) = [(SP_ERR_DEVICE_NOT_DETECTED, [])] /\
  responses (snd r') = [(SP_OK, bytes_of_string "pic16f84")].
Proof.
  vm_compute. repeat split; discriminate.
Defined.

Lemma detect_legacy_device_unknown :
  let r := pic_command_detect_device icsp_io line_high two_devices
             empty_request (boot icsp_io) in
  _state (snd r) = STATE_IDLE /\
  fst r = Some SP_ERR_DEVICE_NOT_DETECTED /\
  responses (snd r) = [(SP_ERR_DEVICE_NOT_DETECTED, [])] /\
  prof (snd r) = default_profile icsp_io.
Proof.
  apply (detect_legacy_device icsp_io line_high two_devices empty_request
           (boot icsp_io)).
  - right. reflexivity.
  - vm_compute. discriminate.
Defined.

(** From program memory at offset 5 to the first config word: another
    region, and no power-down or power-up happens. *)
Lemma program_to_config_without_reset :
  let s1 := _set_program_counter icsp_io 5 (boot icsp_io) in
  let s2 := _set_program_counter icsp_io 0x2000 s1 in
  region_of (prof s1) 5 = Program /\
  region_of (prof s1) 0x2000 = Config /\
  _state s1 = STATE_PROGRAM /\
  power_downs (trace s2) = power_downs (trace s1) /\
  power_ups (trace s2) = power_ups (trace s1).
Proof.
  vm_compute. repeat split.
Defined.

(** Back from offset 0x10 to offset 5 of program memory. *)
Lemma set_program_counter_reset_cycle_backward :
  let s1 := _set_program_counter icsp_io 0x10 (boot icsp_io) in
  trace (_set_program_counter icsp_io 5 s1) =
  trace s1
    ++ (power_down_seq icsp_io ++ power_up_seq icsp_io ++ []
          ++ increments icsp_io 5) /\
  _program_counter (_set_program_counter icsp_io 5 s1) = 5 /\
  _state (_set_program_counter icsp_io 5 s1) = STATE_PROGRAM.
Proof.
  apply (set_program_counter_reset_cycle icsp_io 5
           (_set_program_counter icsp_io 0x10 (boot icsp_io))).
  - vm_compute. discriminate.
  - lia.
Defined.

Lemma same_region_visits_program :
  let s := boot icsp_io in
  (exists evs,
      trace (_set_program_counter icsp_io 0x10
               (_set_program_counter icsp_io 5 s)) = trace s ++ evs /\
      power_downs evs = 0%nat /\ power_ups evs = 1%nat) /\
  (exists rest,
      forallb quiet rest = true /\
      trace (_set_program_counter icsp_io 5
               (_set_program_counter icsp_io 0x10 s)) =
      trace (_set_program_counter icsp_io 0x10 s)
        ++ power_down_seq icsp_io ++ power_up_seq icsp_io ++ rest /\
      _program_counter (_set_program_counter icsp_io 5
                          (_set_program_counter icsp_io 0x10 s)) = 5).
Proof.
  apply (same_region_visits icsp_io 5 0x10 (boot icsp_io));
    [lia|lia|reflexivity|reflexivity].
Defined.

Lemma set_program_counter_lands_config :
  (_program_counter (_set_program_counter icsp_io 0x2003 (boot icsp_io)) = 3 /\
   _state (_set_program_counter icsp_io 0x2003 (boot icsp_io)) =
   STATE_CONFIG) /\
  trace (_set_program_counter icsp_io 0x2003 (boot icsp_io)) =
  [] ++ power_up_seq icsp_io
     ++ write_command_events icsp_io 0x00 0
     ++ increments icsp_io 3.
Proof.
  apply (set_program_counter_lands icsp_io 0x2003 (boot icsp_io)). lia.
Defined.

Lemma read_empty_range_5_2 :
  exists s',
    pic_command_read icsp_io line_low (read_request 5 2) (boot icsp_io) =
    Some (SP_OK, s') /\
    responses s' = [(SP_STATUS_READ_DONE, [])] /\
    samples s' = 0%nat /\
    trace s' = [] /\
    stores s' = [] /\
    _state s' = STATE_IDLE /\
    _program_counter s' = 0.
Proof.
  apply (read_empty_range icsp_io line_low (read_request 5 2) (boot icsp_io)
           5 2); [reflexivity|reflexivity|lia].
Defined.

Lemma read_config_word_flat_device_id :
  _read_config_word icsp_io line_high 6 (boot icsp_io) =
  _read_word icsp_io line_high 0x2006 (boot icsp_io).
Proof.
  apply (read_config_word_flat icsp_io line_high 6 (boot icsp_io)).
  - lia.
  - simpl. lia.
  - simpl. lia.
Defined.

(** A profile whose Data bounds cover its Config bounds, as [_init_device]
    loads it from [overlapping_device]: the read by relative address returns
    the 14-bit word, the read by flat address takes the address for data
    memory and returns 8 bits. *)
Lemma read_config_word_differs_under_overlap :
  let s := _init_device overlapping_device (boot icsp_io) in
  0 <= 3 /\
  configStart (prof s) + 3 <= configEnd (prof s) /\
  fst (_read_config_word icsp_io line_high 3 s) = 0x3FFF /\
  fst (_read_word icsp_io line_high (configStart (prof s) + 3) s) = 0xFF /\
  _read_config_word icsp_io line_high 3 s <>
  _read_word icsp_io line_high (configStart (prof s) + 3) s.
Proof.
  vm_compute. repeat split; discriminate.
Defined.

(** * The further properties at concrete inputs *)

Lemma send_read_command_bits_high :
  Z.testbit (fst (_send_read_command icsp_io line_high 4 (boot icsp_io))) 3 =
  true /\
  samples (snd (_send_read_command icsp_io line_high 4 (boot icsp_io))) =
  16%nat.
Proof.
  apply (send_read_command_bits icsp_io line_high 4 (boot icsp_io) 3). lia.
Defined.

Lemma write_then_read_round_trip_2AAA :
  fst (_send_read_command icsp_io
         (fun n =>
            nth (6 + n)
                (data_out
                   (trace (_send_write_command icsp_io 0x00 0x12AAA
                             (boot icsp_io)))) false)
         0x04 (boot icsp_io)) = 0x2AAA.
Proof.
  apply (write_then_read_round_trip icsp_io
           (fun n =>
              nth (6 + n)
                  (data_out
                     (trace (_send_write_command icsp_io 0x00 0x12AAA
                               (boot icsp_io)))) false)
           0x00 0x12AAA (boot icsp_io) 0x04 (boot icsp_io)).
  intros j Hj. reflexivity.
Defined.

Lemma power_tracked_kept_boot :
  power_tracked (_enter_program_mode icsp_io (boot icsp_io)) /\
  power_tracked (_exit_program_mode icsp_io (boot icsp_io)) /\
  power_tracked (_set_program_counter icsp_io 0x2003 (boot icsp_io)) /\
  power_tracked (snd (_read_word icsp_io line_low 0x2003 (boot icsp_io))) /\
  power_tracked
    (snd (_read_config_word icsp_io line_low 0x2003 (boot icsp_io))) /\
  power_tracked (_set_erase_program_counter icsp_io (boot icsp_io)).
Proof.
  apply (power_tracked_kept icsp_io line_low 0x2003 (boot icsp_io));
    [reflexivity|lia].
Defined.


Lemma set_program_counter_cost_config :
  let s' := _set_program_counter icsp_io 0x2003 (boot icsp_io) in
  clock_pulses (trace s') = 40%nat /\
  samples s' = 0%nat /\
  responses s' = [] /\
  prof s' = default_profile icsp_io.
Proof.
  apply (set_program_counter_cost icsp_io 0x2003 (boot icsp_io)). lia.
Defined.

Lemma read_word_next_program :
  let s1 := snd (_read_word icsp_io line_low 5 (boot icsp_io)) in
  trace (snd (_read_word icsp_io line_low 5 s1)) =
  trace s1 ++ read_command_events icsp_io line_low 0x04 (samples s1) /\
  trace (snd (_read_word icsp_io line_low 6 s1)) =
  trace s1
    ++ simple_command_events icsp_io 0x06
    ++ read_command_events icsp_io line_low 0x04 (samples s1).
Proof.
  apply (read_word_next icsp_io line_low 5 (boot icsp_io));
    [lia|reflexivity].
Defined.

Lemma detect_known_id_pic16f628a :
  let r := pic_command_detect_device icsp_io
             (line_of_words [0; 0; 0; 0; 0x1066; 0x3F10]) two_devices
             empty_request (boot icsp_io) in
  _state (snd r) = STATE_IDLE /\
  samples (snd r) = 96%nat /\
  fst r = Some SP_OK /\
  responses (snd r) = [(SP_OK, bytes_of_string "pic16f628a")] /\
  prof (snd r) = prof (_init_device pic16f628a (boot icsp_io)).
Proof.
  apply (detect_known_id icsp_io
           (line_of_words [0; 0; 0; 0; 0x1066; 0x3F10]) two_devices
           empty_request (boot icsp_io));
    vm_compute; discriminate.
Defined.

Lemma detect_scan_stops_third_word :
  let r := pic_command_detect_device icsp_io
             (line_of_words [0; 0; 0; 0; 0; 0; 0; 0; 5]) two_devices
             empty_request (boot icsp_io) in
  samples (snd r) = 144%nat /\
  _state (snd r) = STATE_IDLE /\
  fst r = Some SP_ERR_DEVICE_NOT_DETECTED /\
  responses (snd r) = [(SP_ERR_DEVICE_NOT_DETECTED, [])] /\
  prof (snd r) = default_profile icsp_io.
Proof.
  apply (detect_scan_stops icsp_io
           (line_of_words [0; 0; 0; 0; 0; 0; 0; 0; 5]) two_devices
           empty_request (boot icsp_io) 2).
  - left. reflexivity.
  - reflexivity.
  - lia.
  - intros j Hj. do 2 (destruct j as [|j]; [reflexivity|]). lia.
  - vm_compute. discriminate.
Defined.

Lemma read_range_payload_300 :
  exists s',
    pic_command_read icsp_io line_low (read_request 0 299) (boot icsp_io) =
    Some (SP_OK, s') /\
    responses s' =
    (SP_STATUS_READ_DONE, [])
      :: [(SP_STATUS_READ_MORE,
           flat_map bigendian_bytes
                    (map (read_value line_low (boot icsp_io) 0) (seq 0 256)))]
      ++ [].
Proof.
  apply (read_range_payload icsp_io line_low (read_request 0 299)
           (boot icsp_io) 0 299); [reflexivity|reflexivity|lia|lia].
Defined.

Lemma read_range_account_100 :
  exists s',
    pic_command_read icsp_io line_low (read_request 0 99) (boot icsp_io) =
    Some (SP_OK, s') /\
    samples s' = 1600%nat /\
    led_out (trace s') = [false; true; false] /\
    _state s' = STATE_PROGRAM /\
    _program_counter s' = 99 /\
    prof s' = default_profile icsp_io.
Proof.
  apply (read_range_account icsp_io line_low (read_request 0 99)
           (boot icsp_io) 0 99); [reflexivity|reflexivity|lia|lia].
Defined.

Lemma read_top_address_never_ends_from_7 :
  (forall fuel count activity buffer,
      read_loop icsp_io line_low fuel 7 (2 ^ 32 - 1) count activity buffer
        (boot icsp_io) = None) /\
  pic_command_read icsp_io line_low (read_request 7 (2 ^ 32 - 1))
    (boot icsp_io) = None.
Proof.
  apply (read_top_address_never_ends icsp_io line_low
           (read_request 7 (2 ^ 32 - 1)) (boot icsp_io) 7);
    [reflexivity|reflexivity|split; [lia|reflexivity]].
Defined.

Lemma init_device_regions_pic16f628a :
  let p := prof (_init_device pic16f628a (boot icsp_io)) in
  (0 <= 0x2003 < programSize pic16f628a ->
   region_of p 0x2003 = Program /\ offset_of p 0x2003 = 0x2003) /\
  (dev_configStart pic16f628a <= 0x2003 <
   dev_configStart pic16f628a + configSize pic16f628a ->
   region_of p 0x2003 = Config /\
   offset_of p 0x2003 = 0x2003 - dev_configStart pic16f628a) /\
  (dev_dataStart pic16f628a <= 0x2003 <
   dev_dataStart pic16f628a + dataSize pic16f628a ->
   region_of p 0x2003 = Data /\
   offset_of p 0x2003 = 0x2003 - dev_dataStart pic16f628a) /\
  reservedStart p = 2048 /\
  reservedEnd p = 2047.
Proof.
  apply (init_device_regions pic16f628a (boot icsp_io) 0x2003);
    vm_compute; repeat split; discriminate.
Defined.


Lemma read_word_bits_high :
  Z.testbit (fst (_read_word icsp_io line_high 5 (boot icsp_io))) 3 = true.
Proof.
  apply (read_word_bits icsp_io line_high 5 (boot icsp_io) 3).
  vm_compute. lia.
Defined.
